(** * Face-Attendance-System: liveness, anti-spoofing and the recognise handler

    A shallow embedding of the anti-spoofing module ([detectSpoofing],
    [detectBlink], [verifyLiveness], [stopLivenessDetection]) and of the
    recognise-button handler of [app.js], with the properties the system's
    specification states about them.

    JavaScript numbers are IEEE 754 binary64 values; they are modelled by
    Rocq's primitive floats, which are the same values with the same
    correctly rounded operations, so every definition below computes exactly
    what the script computes.  Counters that only ever hold small
    non-negative integers ([blinkCount], [frameCount]) are modelled by [nat]. *)

From Stdlib Require Import Floats ZArith List Bool Lia String PeanoNat.
From Stdlib Require Import Permutation.
Import ListNotations.

Set Warnings "-inexact-float".

(** ** JavaScript primitives used by the module *)

Module JS.

(** Errors that can be thrown inside the two [try] blocks. *)
Inductive Error : Type :=
| TypeError          (* property read on [undefined] *)
| DetectorRejected   (* the awaited detector promise rejected *)
| CallbackError.     (* the [onProgress] callback threw *)

(** Completion of an expression: a value, or a thrown error. *)
Inductive Completion (A : Type) : Type :=
| Normal (a : A)
| Throw (e : Error).
Arguments Normal {A} a.
Arguments Throw {A} e.

Definition cbind {A B : Type} (c : Completion A) (k : A -> Completion B)
  : Completion B :=
  match c with
  | Normal a => k a
  | Throw e => Throw e
  end.

(** [Math.sqrt]: correctly rounded square root. *)
Definition Math_sqrt (v : float) : float := PrimFloat.sqrt v.

(** [Math.pow(v, 2)], the only exponent the module uses: the square,
    rounded once. *)
Definition Math_pow_2 (v : float) : float := PrimFloat.mul v v.

(** [a > b] on numbers is [b < a]; both are false when either is NaN. *)
Definition gt (a b : float) : bool := PrimFloat.ltb b a.
Definition lt (a b : float) : bool := PrimFloat.ltb a b.

(** [arr[i]]: the element, or [undefined] ([None]) out of range. *)
Definition index {A : Type} (arr : list A) (i : nat) : option A :=
  nth_error arr i.

(** Reading a property of [arr[i]]: a [TypeError] when it is [undefined]. *)
Definition member {A B : Type} (arr : list A) (i : nat) (field : A -> B)
  : Completion B :=
  match index arr i with
  | Some o => Normal (field o)
  | None => Throw TypeError
  end.

End JS.

Declare Scope js_scope.
Delimit Scope js_scope with js.
Notation "v <- c ;; k" := (JS.cbind c (fun v => k))
  (at level 61, c at next level, right associativity) : js_scope.

(** ** The anti-spoofing module *)

Module AntiSpoofing.
Import JS.

(** *** Data *)

(** A point [{x, y}]: an eye landmark or a face centre. *)
Record Point : Type := mkPoint { x : float; y : float }.

(** [detection.detection.box]. *)
Record Box : Type := mkBox {
  box_x : float;
  box_y : float;
  width : float;
  height : float
}.

(** [detection.landmarks], with the two accessors the module calls. *)
Record Landmarks : Type := mkLandmarks {
  getLeftEye : list Point;
  getRightEye : list Point
}.

(** What the face detector resolves to for one face. *)
Record Detection : Type := mkDetection {
  landmarks : option Landmarks;
  box : Box
}.

(** The [video] element, as far as the module reads it. *)
Record Video : Type := mkVideo {
  videoWidth : float;
  videoHeight : float
}.

(** The four module-level [let] variables.  They are shared by every
    function of the module and by every session. *)
Record Globals : Type := mkGlobals {
  blinkCount : nat;
  headMovementDetected : bool;
  lastFacePosition : option Point;
  blinkDetectionActive : bool
}.

(** The module as loaded: the initialisers of the four variables. *)
Definition initialGlobals : Globals :=
  {| blinkCount := 0;
     headMovementDetected := false;
     lastFacePosition := None;
     blinkDetectionActive := false |}.

Definition set_blinkCount (n : nat) (g : Globals) : Globals :=
  {| blinkCount := n;
     headMovementDetected := headMovementDetected g;
     lastFacePosition := lastFacePosition g;
     blinkDetectionActive := blinkDetectionActive g |}.

Definition set_headMovementDetected (b : bool) (g : Globals) : Globals :=
  {| blinkCount := blinkCount g;
     headMovementDetected := b;
     lastFacePosition := lastFacePosition g;
     blinkDetectionActive := blinkDetectionActive g |}.

Definition set_lastFacePosition (p : option Point) (g : Globals) : Globals :=
  {| blinkCount := blinkCount g;
     headMovementDetected := headMovementDetected g;
     lastFacePosition := p;
     blinkDetectionActive := blinkDetectionActive g |}.

Definition set_blinkDetectionActive (b : bool) (g : Globals) : Globals :=
  {| blinkCount := blinkCount g;
     headMovementDetected := headMovementDetected g;
     lastFacePosition := lastFacePosition g;
     blinkDetectionActive := b |}.

(** *** [detectSpoofing] *)

Record SpoofDetails : Type := mkSpoofDetails {
  sizeConsistency : bool;
  positionStability : float
}.

(** The returned object; the early return carries no [details]. *)
Record SpoofVerdict : Type := mkSpoofVerdict {
  isSpoofed : bool;
  confidence : float;
  details : option SpoofDetails
}.

(** The centre of a box, [{x: box.x + box.width / 2, y: box.y + box.height / 2}]. *)
Definition centerOf (b : Box) : Point :=
  {| x := box_x b + width b / 2; y := box_y b + height b / 2 |}%float.

(** [Math.sqrt(Math.pow(c.x - l.x, 2) + Math.pow(c.y - l.y, 2))]. *)
Definition movementBetween (current last : Point) : float :=
  Math_sqrt (Math_pow_2 (x current - x last) + Math_pow_2 (y current - y last))%float.

(** [faceRatio = (box.width * box.height) / (video.videoWidth * video.videoHeight)]. *)
Definition faceRatioOf (b : Box) (video : Video) : float :=
  let faceSize := (width b * height b)%float in
  let videoArea := (videoWidth video * videoHeight video)%float in
  (faceSize / videoArea)%float.

(** The function reads and writes [lastFacePosition]; the state is passed
    in and out explicitly.  A missing argument is [None]. *)
Definition detectSpoofing (detection : option Detection) (video : option Video)
    (g : Globals) : SpoofVerdict * Globals :=
  match detection, video with
  | Some d, Some v =>
      let faceRatio := faceRatioOf (box d) v in
      let sizeConsistency := gt faceRatio 0.05 && lt faceRatio 0.4 in
      let currentPosition := centerOf (box d) in
      let positionStability :=
        match lastFacePosition g with
        | Some last =>
            let movement := movementBetween currentPosition last in
            if gt movement 5 && lt movement 50 then 0.8%float else 0.3%float
        | None => 1%float
        end in
      let g' := set_lastFacePosition (Some currentPosition) g in
      let spoofScore := if sizeConsistency then 0.2%float else 0.6%float in
      let finalScore := (spoofScore * (1 - positionStability * 0.3))%float in
      ({| isSpoofed := gt finalScore 0.5;
          confidence := finalScore;
          details := Some {| sizeConsistency := sizeConsistency;
                             positionStability := positionStability |} |},
       g')
  | _, _ => ({| isSpoofed := false; confidence := 0%float; details := None |}, g)
  end.

(** *** [detectBlink] *)

Local Open Scope js_scope.

(** The inner [calculateEAR]; indexing past the end of the array reads a
    property of [undefined] and throws. *)
Definition calculateEAR (eyePoints : list Point) : Completion float :=
  y1 <- member eyePoints 1 y ;; y5 <- member eyePoints 5 y ;;
  x1 <- member eyePoints 1 x ;; x5 <- member eyePoints 5 x ;;
  let vertical1 := Math_sqrt (Math_pow_2 (y1 - y5) + Math_pow_2 (x1 - x5))%float in
  y2 <- member eyePoints 2 y ;; y4 <- member eyePoints 4 y ;;
  x2 <- member eyePoints 2 x ;; x4 <- member eyePoints 4 x ;;
  let vertical2 := Math_sqrt (Math_pow_2 (y2 - y4) + Math_pow_2 (x2 - x4))%float in
  x0 <- member eyePoints 0 x ;; x3 <- member eyePoints 3 x ;;
  y0 <- member eyePoints 0 y ;; y3 <- member eyePoints 3 y ;;
  let horizontal := Math_sqrt (Math_pow_2 (x0 - x3) + Math_pow_2 (y0 - y3))%float in
  Normal ((vertical1 + vertical2) / (2 * horizontal))%float.

Definition BLINK_THRESHOLD : float := 0.25%float.

(** The body of the [try] block. *)
Definition detectBlink_try (lm : Landmarks) : Completion bool :=
  let leftEye := getLeftEye lm in
  let rightEye := getRightEye lm in
  leftEAR <- calculateEAR leftEye ;;
  rightEAR <- calculateEAR rightEye ;;
  let avgEAR := ((leftEAR + rightEAR) / 2)%float in
  Normal (lt avgEAR BLINK_THRESHOLD).

(** [detectBlink]: [false] without landmarks, and [false] from the
    [catch] clause (which only logs). *)
Definition detectBlink (landmarks : option Landmarks) : bool :=
  match landmarks with
  | None => false
  | Some lm =>
      match detectBlink_try lm with
      | Normal b => b
      | Throw _ => false
      end
  end.

(** *** [verifyLiveness] *)

(** Statements of the frame callback's [try] block: they read and write
    the module variables and may throw; an assignment made before a throw
    stays made. *)
Definition Stmt (A : Type) : Type := Globals -> Completion A * Globals.

Definition sret {A : Type} (a : A) : Stmt A := fun g => (Normal a, g).
Definition sthrow {A : Type} (e : Error) : Stmt A := fun g => (Throw e, g).
Definition sbind {A B : Type} (m : Stmt A) (k : A -> Stmt B) : Stmt B :=
  fun g =>
    match m g with
    | (Normal a, g') => k a g'
    | (Throw e, g') => (Throw e, g')
    end.
Definition sget : Stmt Globals := fun g => (Normal g, g).
Definition smodify (f : Globals -> Globals) : Stmt unit :=
  fun g => (Normal tt, f g).
Definition slift {A : Type} (c : Completion A) : Stmt A := fun g => (c, g).

Notation "v <~ c ;; k" := (sbind c (fun v => k))
  (at level 61, c at next level, right associativity).
Notation "c ;;; k" := (sbind c (fun _ => k))
  (at level 61, right associativity).

(** What one call of the detector chain
    [faceapi.detectSingleFace(...).withFaceLandmarks()] does when awaited:
    it rejects, resolves to [undefined], or resolves to a detection. *)
Inductive DetectorResult : Type :=
| Rejects
| NoFace
| Face (d : Detection).

Definition awaitDetection (r : DetectorResult) : Stmt (option Detection) :=
  match r with
  | Rejects => sthrow DetectorRejected
  | NoFace => sret None
  | Face d => sret (Some d)
  end.

(** The argument of [onProgress]. *)
Record Progress : Type := mkProgress {
  progress_blinks : nat;
  required : nat
}.

(** The optional [onProgress] callback: all the module sees of it is
    whether it returns or throws. *)
Definition ProgressCallback : Type := option (Progress -> Completion unit).

Definition maxFrames : nat := 300.
Definition requiredBlinks : nat := 2.

(** The [try] block of [detectLiveness], run with the already incremented
    [frameCount]. *)
Definition detectLiveness_try (onProgress : ProgressCallback)
    (frameCount : nat) (r : DetectorResult) : Stmt unit :=
  detection <~ awaitDetection r ;;
  match detection with
  | Some d =>
      let isBlinking := detectBlink (landmarks d) in
      (if isBlinking && (frameCount mod 5 =? 0)
       then
         smodify (fun g => set_blinkCount (S (blinkCount g)) g) ;;;
         match onProgress with
         | Some callback =>
             g <~ sget ;;
             slift (callback {| progress_blinks := blinkCount g;
                                required := requiredBlinks |})
         | None => sret tt
         end
       else sret tt) ;;;
      let currentPosition := centerOf (box d) in
      g <~ sget ;;
      match lastFacePosition g with
      | Some last =>
          let movement := movementBetween currentPosition last in
          if gt movement 10
          then smodify (set_headMovementDetected true)
          else sret tt
      | None => sret tt
      end ;;;
      smodify (set_lastFacePosition (Some currentPosition))
  | None => sret tt
  end.

(** [try { ... } catch (error) { console.error(...) }]: the error is
    swallowed, the assignments made so far are kept. *)
Definition tryCatch (body : Stmt unit) (g : Globals) : Globals :=
  snd (body g).

(** The object the promise resolves to. *)
Record LivenessVerdict : Type := mkLivenessVerdict {
  success : bool;
  blinks : nat;
  headMovement : bool
}.

(** One call of the frame callback either resolves the promise or
    schedules itself again with the new [frameCount]. *)
Inductive Step : Type :=
| Resolved (verdict : LivenessVerdict) (g : Globals)
| Scheduled (g : Globals) (frameCount : nat).

(** One call of [detectLiveness]; [r] is what the detector answers if it
    is asked during this call. *)
Definition detectLiveness (onProgress : ProgressCallback)
    (g : Globals) (frameCount : nat) (r : DetectorResult) : Step :=
  if negb (blinkDetectionActive g) || (maxFrames <=? frameCount)
  then
    Resolved
      {| success := (requiredBlinks <=? blinkCount g) && headMovementDetected g;
         blinks := blinkCount g;
         headMovement := headMovementDetected g |}
      (set_blinkDetectionActive false g)
  else
    let frameCount := S frameCount in
    Scheduled (tryCatch (detectLiveness_try onProgress frameCount r) g) frameCount.

(** [stopLivenessDetection]. *)
Definition stopLivenessDetection (g : Globals) : Globals :=
  set_blinkDetectionActive false g.

(** What happens around the [n]-th call of the frame callback: whether the
    page called [stopLivenessDetection] since the previous call, and what
    the detector answers for this frame.  Frames are numbered from 1, as
    [frameCount] numbers them after its increment.  The first call is made
    by [verifyLiveness] itself, so nothing can stop the session before it:
    [stopRequested] is read from frame 2 on. *)
Record Tick : Type := mkTick {
  stopRequested : bool;
  detectorResult : DetectorResult
}.

Definition FrameSource : Type := nat -> Tick.

(** A callback run by [requestAnimationFrame], for frame [S frameCount]. *)
Definition tick (onProgress : ProgressCallback) (frames : FrameSource)
    (g : Globals) (frameCount : nat) : Step :=
  let t := frames (S frameCount) in
  let g := if stopRequested t then stopLivenessDetection g else g in
  detectLiveness onProgress g frameCount (detectorResult t).

(** The chain of [requestAnimationFrame] callbacks, at most [fuel] calls
    long; a resolved promise stays resolved. *)
Fixpoint frameLoop (fuel : nat) (onProgress : ProgressCallback)
    (frames : FrameSource) (g : Globals) (frameCount : nat) : Step :=
  match fuel with
  | 0 => Scheduled g frameCount
  | S fuel' =>
      match tick onProgress frames g frameCount with
      | Resolved v g' => Resolved v g'
      | Scheduled g' frameCount' =>
          frameLoop fuel' onProgress frames g' frameCount'
      end
  end.

(** The assignments [verifyLiveness] makes before the first callback;
    [lastFacePosition] is not among them. *)
Definition startSession (g : Globals) : Globals :=
  set_blinkDetectionActive true
    (set_headMovementDetected false (set_blinkCount 0 g)).

(** The session after [calls] calls of the frame callback: the
    assignments, the direct call [detectLiveness()] with [frameCount = 0],
    then the scheduled calls. *)
Definition sessionAfter (calls : nat) (onProgress : ProgressCallback)
    (frames : FrameSource) (g : Globals) : Step :=
  match calls with
  | 0 => Scheduled (startSession g) 0
  | S calls' =>
      match detectLiveness onProgress (startSession g) 0 (detectorResult (frames 1)) with
      | Resolved v g' => Resolved v g'
      | Scheduled g' frameCount' =>
          frameLoop calls' onProgress frames g' frameCount'
      end
  end.

(** [verifyLiveness]: the verdict the promise resolves to, with the module
    variables as the session leaves them; [None] while the promise is
    still pending after [fuel] callbacks. *)
Definition verifyLiveness_fuel (fuel : nat) (onProgress : ProgressCallback)
    (frames : FrameSource) (g : Globals) : option (LivenessVerdict * Globals) :=
  match sessionAfter fuel onProgress frames g with
  | Resolved v g' => Some (v, g')
  | Scheduled _ _ => None
  end.

(** [maxFrames + 1] callbacks always suffice (lemma
    [LivenessFacts.frameLoop_resolves]). *)
Definition verifyLiveness (onProgress : ProgressCallback)
    (frames : FrameSource) (g : Globals) : option (LivenessVerdict * Globals) :=
  verifyLiveness_fuel (S maxFrames) onProgress frames g.

(** The module variables a step leaves behind. *)
Definition globalsOf (s : Step) : Globals :=
  match s with
  | Resolved _ g => g
  | Scheduled g _ => g
  end.

End AntiSpoofing.

(** ** The recognise button of [app.js] *)

Module App.

(** A face descriptor, [Float32Array]. *)
Definition Descriptor : Type := list float.

(** [faceapi.LabeledFaceDescriptors]. *)
Record LabeledFaceDescriptors : Type := mkLabeled {
  label : string;
  descriptors : list Descriptor
}.

(** [faceapi.FaceMatch], the result of [findBestMatch]. *)
Record FaceMatch : Type := mkFaceMatch {
  match_label : string;
  distance : float
}.

(** What a run of the handler does to the outside world, in order.
    [CallVerifyLiveness] and [CallDetectSpoofing] are the entry points of
    the anti-spoofing module.  [Rejected] ends a run whose promise rejects:
    something awaited or called inside the async handler threw, no [try]
    encloses it, and nothing after it runs. *)
Inductive Effect : Type :=
| DetectSingleFace
| FindBestMatch (query : Descriptor)
| InsertAttendance (student_name : string)
| Alert (message : string)
| ConsoleLog (message : string)
| ConsoleError (message : string)
| CallVerifyLiveness
| CallDetectSpoofing
| Rejected.

(** What the detector chain
    [faceapi.detectSingleFace(...).withFaceLandmarks().withFaceDescriptor()]
    does when called and awaited: it throws or rejects ([loadModels] only
    logs a failed load, so the models may be missing), or resolves to a
    detection with its descriptor or to [undefined]. *)
Inductive DetectorOutcome : Type :=
| ChainRejects
| ChainResolves (detections : option Descriptor).

(** What the handler finds when it runs.  The attendance insert is a
    Supabase query: awaited, it resolves to an object with or without an
    [error]. *)
Record World : Type := mkWorld {
  video : bool;                                   (* the page has a video element *)
  detections : DetectorOutcome;                   (* what the awaited detector chain does *)
  labeledFaceDescriptors : list LabeledFaceDescriptors;
  insertError : bool                              (* the awaited insert resolves to an error *)
}.

(** [detectFace]: the descriptor or [null], or the rejection of the
    awaited chain, which [detectFace] does not catch; and what it did. *)
Definition detectFace (w : World) : JS.Completion (option Descriptor) * list Effect :=
  if negb (video w) then (JS.Normal None, [])
  else
    match detections w with
    | ChainRejects => (JS.Throw JS.DetectorRejected, [DetectSingleFace])
    | ChainResolves (Some descriptor) => (JS.Normal (Some descriptor), [DetectSingleFace])
    | ChainResolves None =>
        (JS.Normal None, [DetectSingleFace; Alert "No face detected. Please try again."])
    end.

(** [markAttendance]. *)
Definition markAttendance (w : World) (name : string) : list Effect :=
  InsertAttendance name ::
  (if insertError w
   then [ConsoleError "Error marking attendance:"]
   else [ConsoleLog ("Attendance marked for " ++ name)%string]).

Section Handler.

(** [new faceapi.FaceMatcher(gallery, threshold).findBestMatch(query)]:
    code of the face-api library, taken as given; [None] when the
    constructor or the call throws. *)
Variable findBestMatch :
  list LabeledFaceDescriptors -> float -> Descriptor -> option FaceMatch.

(** The click handler of [recognizeButton]. *)
Definition recognizeClick (w : World) : list Effect :=
  let (faceDescriptor, detecting) := detectFace w in
  match faceDescriptor with
  | JS.Throw _ => (detecting ++ [Rejected])%list
  | JS.Normal (Some faceDescriptor) =>
      if List.length (labeledFaceDescriptors w) =? 0
      then (detecting ++ [Alert "No registered faces found in the system."])%list
      else
        match findBestMatch (labeledFaceDescriptors w) 0.6%float faceDescriptor with
        | None => (detecting ++ [FindBestMatch faceDescriptor; Rejected])%list
        | Some bestMatch =>
            if negb (String.eqb (match_label bestMatch) "unknown")
            then
              (detecting ++ [FindBestMatch faceDescriptor]
                ++ markAttendance w (match_label bestMatch)
                ++ [Alert ("Face recognized! Attendance marked for "
                           ++ match_label bestMatch ++ ".")%string])%list
            else
              (detecting ++ [FindBestMatch faceDescriptor]
                ++ [Alert "Face not recognized. Please register first."])%list
        end
  | JS.Normal None => detecting
  end.

End Handler.

(** Every identity match of a run is preceded by a liveness verification. *)
Definition livenessBeforeMatching (trace : list Effect) : Prop :=
  forall before query after,
    trace = (before ++ FindBestMatch query :: after)%list ->
    In CallVerifyLiveness before.

Definition isAntiSpoofingCall (e : Effect) : bool :=
  match e with
  | CallVerifyLiveness | CallDetectSpoofing => true
  | _ => false
  end.

(** Modelled from the spec: the identity matcher, which is library code
    ([faceapi.FaceMatcher]) and not part of the repository.  The distance
    of a label is the least Euclidean distance over its descriptors; the
    nearest label wins, the first one on a tie; a nearest distance above
    the threshold gives the label "unknown" with that distance, and so
    does an empty gallery, with distance infinity. *)
Definition euclideanDistance (a b : Descriptor) : float :=
  PrimFloat.sqrt
    (fold_left (fun acc uv => (acc + (fst uv - snd uv) * (fst uv - snd uv))%float)
               (combine a b) 0%float).

Definition labelDistance (query : Descriptor) (entry : LabeledFaceDescriptors) : float :=
  fold_left (fun least d =>
               let dist := euclideanDistance query d in
               if PrimFloat.ltb dist least then dist else least)
            (descriptors entry) infinity.

Definition nearestMatch (gallery : list LabeledFaceDescriptors)
    (threshold : float) (query : Descriptor) : FaceMatch :=
  let best :=
    fold_left (fun best entry =>
                 let dist := labelDistance query entry in
                 if PrimFloat.ltb dist (distance best)
                 then {| match_label := label entry; distance := dist |}
                 else best)
              gallery {| match_label := "unknown"; distance := infinity |} in
  if PrimFloat.ltb threshold (distance best)
  then {| match_label := "unknown"; distance := distance best |}
  else best.

(** A matcher that never throws. *)
Definition returning
    (matcher : list LabeledFaceDescriptors -> float -> Descriptor -> FaceMatch)
    : list LabeledFaceDescriptors -> float -> Descriptor -> option FaceMatch :=
  fun gallery threshold query => Some (matcher gallery threshold query).

End App.

(** ** The specification's wording: eye aspect ratio, blink predicate,
       malformed landmarks *)

Module Spec.
Import AntiSpoofing.

(** Euclidean distance between two landmarks. *)
Definition dist (p q : Point) : float :=
  PrimFloat.sqrt ((x p - x q) * (x p - x q) + (y p - y q) * (y p - y q))%float.

(** [EAR = (dist(p1,p5) + dist(p2,p4)) / (2 * dist(p0,p3))]. *)
Definition EAR (p0 p1 p2 p3 p4 p5 : Point) : float :=
  ((dist p1 p5 + dist p2 p4) / (2 * dist p0 p3))%float.

(** The [i]-th landmark of a well-formed eye. *)
Definition landmark (eye : list Point) (i : nat) : Point :=
  nth i eye (mkPoint 0 0).

Definition eyeEAR (eye : list Point) : float :=
  EAR (landmark eye 0) (landmark eye 1) (landmark eye 2)
      (landmark eye 3) (landmark eye 4) (landmark eye 5).

(** The blink predicate: the average of the two ratios is below 0.25. *)
Definition blinkPredicate (lm : Landmarks) : bool :=
  PrimFloat.ltb ((eyeEAR (getLeftEye lm) + eyeEAR (getRightEye lm)) / 2)%float 0.25%float.

(** The raw blink predicate of a frame: a face was found and its
    landmarks show a blink. *)
Definition rawBlink (r : DetectorResult) : bool :=
  match r with
  | Face d => detectBlink (landmarks d)
  | _ => false
  end.

(** Six points per eye. *)
Definition wellFormed (lm : Landmarks) : Prop :=
  List.length (getLeftEye lm) = 6 /\ List.length (getRightEye lm) = 6.

(** The landmark set is missing, or an eye has fewer than six points. *)
Definition tooFewLandmarks (lm : option Landmarks) : Prop :=
  match lm with
  | None => True
  | Some l => List.length (getLeftEye l) < 6 \/ List.length (getRightEye l) < 6
  end.

End Spec.

(** ** Concrete frames and sessions *)

Module Scenario.
Import AntiSpoofing.

(** An open eye: 30 wide, 10 high. *)
Definition openEye : list Point :=
  [mkPoint 0 5; mkPoint 10 0; mkPoint 20 0; mkPoint 30 5; mkPoint 20 10; mkPoint 10 10].

(** A nearly closed eye: 30 wide, 2 high. *)
Definition closedEye : list Point :=
  [mkPoint 0 5; mkPoint 10 4; mkPoint 20 4; mkPoint 30 5; mkPoint 20 6; mkPoint 10 6].

Definition openEyes : Landmarks := mkLandmarks openEye openEye.
Definition closedEyes : Landmarks := mkLandmarks closedEye closedEye.

(** Closed eyes with a seventh point appended to each eye, and with the
    last point of the left eye missing. *)
Definition sevenPointEyes : Landmarks :=
  mkLandmarks (closedEye ++ [mkPoint 0 0]) (closedEye ++ [mkPoint 0 0]).
Definition fivePointLeftEye : Landmarks :=
  mkLandmarks (firstn 5 closedEye) closedEye.

(** A 200 x 200 face box whose left edge is at [left]; its centre is
    [(left + 100, 200)]. *)
Definition boxAt (left : float) : Box := mkBox left 100 200 200.

(** The camera frame of [app.js], 720 x 560. *)
Definition camera : Video := mkVideo 720 560.

(** A face filling the whole camera frame. *)
Definition fullFrameFace : Detection := mkDetection (Some openEyes) (mkBox 0 0 720 560).

(** Scenario A: 300 frames with a face in each; the eyes are closed at
    frames 5, 10, ..., 50 and open otherwise; the face stands still except
    for one jump of 20 pixels between frames 100 and 101. *)
Definition blinkFrame (n : nat) : bool :=
  (n mod 5 =? 0) && (5 <=? n) && (n <=? 50).

Definition scenarioA : FrameSource :=
  fun n =>
    {| stopRequested := false;
       detectorResult :=
         Face {| landmarks := Some (if blinkFrame n then closedEyes else openEyes);
                 box := if n <=? 100 then boxAt 100 else boxAt 120 |} |}.

(** A running session whose last frame left the face centre at
    [(200, 200)]: no blink counted, no movement seen yet. *)
Definition afterOneFrame : Globals :=
  {| blinkCount := 0;
     headMovementDetected := false;
     lastFacePosition := Some (mkPoint 200 200);
     blinkDetectionActive := true |}.

(** Frames without landmarks whose face box has its centre at
    [(220, 200)], 20 pixels from the centre above. *)
Definition movedWithoutLandmarks : FrameSource :=
  fun _ => {| stopRequested := false;
              detectorResult := Face {| landmarks := None; box := boxAt 120 |} |}.

(** Frames whose eyes carry seven points each. *)
Definition sevenPointFrame : FrameSource :=
  fun _ => {| stopRequested := false;
              detectorResult := Face {| landmarks := Some sevenPointEyes; box := boxAt 100 |} |}.

(** A gallery of one student and a query equal to the stored descriptor. *)
Definition alice : App.LabeledFaceDescriptors := App.mkLabeled "alice" [[0.5; 0.25]%float].

Definition enrolledFaceSeen : App.World :=
  {| App.video := true;
     App.detections := App.ChainResolves (Some [0.5; 0.25]%float);
     App.labeledFaceDescriptors := [alice];
     App.insertError := false |}.

End Scenario.


(** ** Derived notions of a liveness session *)

Module Session.
Import AntiSpoofing.

(** The object the frame callback resolves with when the module variables
    are [g]. *)
Definition verdictOf (g : Globals) : LivenessVerdict :=
  {| success := (requiredBlinks <=? blinkCount g) && headMovementDetected g;
     blinks := blinkCount g;
     headMovement := headMovementDetected g |}.

(** The frame numbers at which a blink is counted: the raw blink predicate
    holds and the number is a multiple of 5. *)
Definition countsAsBlink (frames : FrameSource) (n : nat) : bool :=
  Spec.rawBlink (detectorResult (frames n)) && (n mod 5 =? 0).

(** How many of the [count] frames from number [first] on count as a blink. *)
Definition countedBlinks (frames : FrameSource) (first count : nat) : nat :=
  List.length (filter (countsAsBlink frames) (seq first count)).

(** The detector found a face. *)
Definition faceSeen (r : DetectorResult) : bool :=
  match r with
  | Face _ => true
  | _ => false
  end.

(** Two frame sources that agree on frames [1 .. n]: on the detector
    results, and on the stop requests, which are read from frame 2 on. *)
Definition agreeUpTo (n : nat) (frames frames' : FrameSource) : Prop :=
  (forall m, 1 <= m <= n -> detectorResult (frames m) = detectorResult (frames' m)) /\
  (forall m, 2 <= m <= n -> stopRequested (frames m) = stopRequested (frames' m)).

(** The frame source as the session reads it: the first call is made
    directly, so no stop request is seen at frame 1. *)
Definition directFirst (frames : FrameSource) : FrameSource :=
  fun n =>
    if n =? 1
    then {| stopRequested := false; detectorResult := detectorResult (frames n) |}
    else frames n.

End Session.

(** ** The notification module *)

Module Notifications.
Local Open Scope string_scope.

(** A row of the [notifications] table. *)
Record Notification : Type := mkNotification {
  type : string;
  recipient : string;
  subject : string;
  body : string;
  status : string
}.

(** A line written to the console. *)
Inductive ConsoleLine : Type :=
| ConsoleLog (message : string)
| ConsoleError (message : string).

(** The [notifications] table and the console. *)
Record Db : Type := mkDb {
  notifications : list Notification;
  console : list ConsoleLine
}.

(** What [supabase.from('notifications').insert(...)] does when awaited:
    the row is stored, an error object comes back, or the call throws. *)
Inductive InsertOutcome : Type :=
| Inserted
| InsertError
| InsertThrows.

Definition store (row : Notification) (line : ConsoleLine) (db : Db) : Db :=
  {| notifications := (notifications db ++ [row])%list;
     console := (console db ++ [line])%list |}.

Definition logLine (line : ConsoleLine) (db : Db) : Db :=
  {| notifications := notifications db;
     console := (console db ++ [line])%list |}.

(** [sendEmailNotification(to, subject, body)]. *)
Definition sendEmailNotification (outcome : InsertOutcome)
    (to subject body : string) (db : Db) : bool * Db :=
  match outcome with
  | InsertError =>
      (false, logLine (ConsoleError "Error queuing email notification:") db)
  | Inserted =>
      (true,
       store {| type := "email"; recipient := to; subject := subject;
                body := body; status := "pending" |}
             (ConsoleLog ("Email notification queued for " ++ to ++ ": " ++ subject))
             db)
  | InsertThrows =>
      (false, logLine (ConsoleError "Error sending email notification:") db)
  end.

(** [sendSMSAlert(phoneNumber, message)]. *)
Definition sendSMSAlert (outcome : InsertOutcome)
    (phoneNumber message : string) (db : Db) : bool * Db :=
  match outcome with
  | InsertError =>
      (false, logLine (ConsoleError "Error queuing SMS notification:") db)
  | Inserted =>
      (true,
       store {| type := "sms"; recipient := phoneNumber; subject := "Attendance Alert";
                body := message; status := "pending" |}
             (ConsoleLog ("SMS notification queued for " ++ phoneNumber))
             db)
  | InsertThrows =>
      (false, logLine (ConsoleError "Error sending SMS alert:") db)
  end.

(** An argument that may be missing; [if (email)] also rejects the empty
    string. *)
Definition truthy (s : option string) : bool :=
  match s with
  | Some s => negb (String.eqb s "")
  | None => false
  end.

Definition valueOf (s : option string) : string :=
  match s with
  | Some s => s
  | None => ""
  end.

Definition nl : string := String (Ascii.ascii_of_nat 10) EmptyString.

Definition THRESHOLD : float := 75%float.

(** [select('email, phone_number, parent_email, parent_phone')]. *)
Record Contacts : Type := mkContacts {
  email : option string;
  phone_number : option string;
  parent_email : option string;
  parent_phone : option string
}.

(** [getStudentContacts]: the row, or [null] after logging the error the
    query returned. *)
Definition getStudentContacts (lookup : option Contacts) (db : Db)
    : option Contacts * Db :=
  match lookup with
  | Some data => (Some data, db)
  | None => (None, logLine (ConsoleError "Error fetching student contacts:") db)
  end.

(** [record] of [sendDailySummary]. *)
Record AttendanceRecord : Type := mkAttendanceRecord {
  student_name : string;
  record_status : string;
  time : string
}.

Section Formatting.

(** [Number.prototype.toFixed(1)] and [new Date().toLocaleDateString()],
    built-ins of the language, taken as given. *)
Variable toFixed1 : float -> string.
Variable today : string.

(** [checkAndNotifyLowAttendance]; the two outcomes are those of the
    email insert and of the SMS insert, should they be made. *)
Definition checkAndNotifyLowAttendance (emailOutcome smsOutcome : InsertOutcome)
    (studentName subject : string) (attendancePercentage : float)
    (email phoneNumber : option string) (db : Db) : bool * Db :=
  if PrimFloat.ltb attendancePercentage THRESHOLD
  then
    let emailSubject := "Low Attendance Alert: " ++ studentName in
    let emailBody :=
      nl ++ "Dear " ++ studentName ++ "," ++ nl ++ nl
      ++ "Your attendance in " ++ subject ++ " is currently "
      ++ toFixed1 attendancePercentage
      ++ "%, which is below the required 75% threshold." ++ nl ++ nl
      ++ "Please ensure regular attendance to maintain your academic standing."
      ++ nl ++ nl ++ "Best regards," ++ nl
      ++ "Face Sentinel Attendance System" ++ nl ++ "    " in
    let smsMessage :=
      "Alert: " ++ studentName ++ "'s attendance in " ++ subject ++ " is "
      ++ toFixed1 attendancePercentage ++ "% (below 75%)." in
    let db1 :=
      if truthy email
      then snd (sendEmailNotification emailOutcome (valueOf email) emailSubject emailBody db)
      else db in
    let db2 :=
      if truthy phoneNumber
      then snd (sendSMSAlert smsOutcome (valueOf phoneNumber) smsMessage db1)
      else db1 in
    (true, db2)
  else (false, db).

(** [sendDailySummary]. *)
Definition sendDailySummary (outcome : InsertOutcome) (facultyEmail : string)
    (attendanceData : list AttendanceRecord) (db : Db) : bool * Db :=
  let subject := "Daily Attendance Summary" in
  let body := "Daily Attendance Summary" ++ nl ++ nl in
  let body := body ++ "Date: " ++ today ++ nl ++ nl in
  let body := body ++ "Attendance Records:" ++ nl in
  let body := body ++ "-------------------" ++ nl in
  let body :=
    fold_left (fun body record =>
                 body ++ student_name record ++ ": " ++ record_status record
                 ++ " (" ++ time record ++ ")" ++ nl)
              attendanceData body in
  let body := body ++ nl ++ nl ++ "Best regards," ++ nl
              ++ "Face Sentinel Attendance System" in
  sendEmailNotification outcome facultyEmail subject body db.

(** [notifyParents]; [lookup] is what the contacts query finds. *)
Definition notifyParents (lookup : option Contacts)
    (emailOutcome smsOutcome : InsertOutcome)
    (studentName subject : string) (attendancePercentage : float) (db : Db)
    : bool * Db :=
  match getStudentContacts lookup db with
  | (None, db0) => (false, db0)
  | (Some contacts, db0) =>
      let message :=
        "Your child " ++ studentName ++ "'s attendance in " ++ subject ++ " is "
        ++ toFixed1 attendancePercentage ++ "% (below 75%)." in
      let db1 :=
        if truthy (parent_email contacts)
        then snd (sendEmailNotification emailOutcome (valueOf (parent_email contacts))
                    ("Attendance Alert for " ++ studentName) message db0)
        else db0 in
      let db2 :=
        if truthy (parent_phone contacts)
        then snd (sendSMSAlert smsOutcome (valueOf (parent_phone contacts)) message db1)
        else db1 in
      (true, db2)
  end.

End Formatting.

(** A row as every function of the module writes it. *)
Definition pendingRow (row : Notification) : Prop :=
  status row = "pending" /\
  (type row = "email" \/ type row = "sms").

(** The insert stored the row. *)
Definition stored (outcome : InsertOutcome) : bool :=
  match outcome with
  | Inserted => true
  | _ => false
  end.

(** The channel, the recipient and the status of a queued row. *)
Definition addressOf (row : Notification) : string * string * string :=
  (type row, recipient row, status row).

(** The queue of [db'] is the queue of [db] followed by at most two new
    rows, all of them pending email or SMS rows. *)
Definition queueExtended (db db' : Db) : Prop :=
  exists added,
    notifications db' = (notifications db ++ added)%list /\
    List.length added <= 2 /\
    Forall pendingRow added.

End Notifications.

(** ** Roles and route protection *)

Module Roles.
Local Open Scope string_scope.

(** [ROLES] and [Object.values(ROLES)]. *)
Definition ADMIN : string := "admin".
Definition STAFF : string := "staff".
Definition STUDENT : string := "student".
Definition ROLES_values : list string := [ADMIN; STAFF; STUDENT].

(** [session.user], as far as the module reads it: the id and
    [user_metadata?.role]. *)
Record User : Type := mkUser {
  id : string;
  metadata_role : option string
}.

(** What [supabase.auth.getSession()] does when awaited: it throws, or
    yields a session or [null]. *)
Inductive SessionResult : Type :=
| GetSessionThrows
| GotSession (session : option User).

(** The [profiles] table as [select('role').eq('id', ...).single()] reads
    it: the role stored under an id, [None] when there is no such row or the
    row has no role. *)
Definition Profiles : Type := string -> option string.

Record Auth : Type := mkAuth {
  getSession : SessionResult;
  profileQueryThrows : bool;
  profiles : Profiles
}.

(** A value that counts as true in a condition: present and not the
    empty string. *)
Definition truthy (s : option string) : bool :=
  match s with
  | Some s => negb (String.eqb s "")
  | None => false
  end.

(** [a || b] on values that may be missing. *)
Definition jsOr (a b : option string) : option string :=
  if truthy a then a else b.

(** [getUserRole]; the [catch] clause returns [null]. *)
Definition getUserRole (w : Auth) : option string :=
  match getSession w with
  | GetSessionThrows => None
  | GotSession None => None
  | GotSession (Some user) =>
      if profileQueryThrows w then None
      else jsOr (jsOr (profiles w (id user)) (metadata_role user)) None
  end.

(** [hasRole(requiredRoles)]; the argument is one role or an array. *)
Definition hasRole (requiredRoles : string + list string) (w : Auth) : bool :=
  let userRole := getUserRole w in
  if negb (truthy userRole) then false
  else
    let roles :=
      match requiredRoles with
      | inr roles => roles
      | inl role => [role]
      end in
    existsb (fun role =>
               match userRole with
               | Some r => String.eqb role r
               | None => false
               end) roles.

Definition isAdmin (w : Auth) : bool := hasRole (inl ADMIN) w.
Definition isStaff (w : Auth) : bool := hasRole (inr [ADMIN; STAFF]) w.
Definition isStudent (w : Auth) : bool := hasRole (inl STUDENT) w.

(** What a function of the module does to the page. *)
Inductive PageEffect : Type :=
| Redirect (href : string)
| Alert (message : string).

(** The optional argument of [requireAuth] in a condition: [null] and the
    empty string are false, every array is true. *)
Definition rolesGiven (requiredRoles : option (string + list string)) : bool :=
  match requiredRoles with
  | None => false
  | Some (inl role) => negb (String.eqb role "")
  | Some (inr _) => true
  end.

(** [requireAuth(requiredRoles = null)]: what it returns and does, or
    [None] when the promise rejects because [getSession] threw. *)
Definition requireAuth (requiredRoles : option (string + list string)) (w : Auth)
    : option (bool * list PageEffect) :=
  match getSession w with
  | GetSessionThrows => None
  | GotSession None => Some (false, [Redirect "/index.html"])
  | GotSession (Some _) =>
      let hasRequiredRole :=
        match requiredRoles with
        | Some roles => hasRole roles w
        | None => false
        end in
      if rolesGiven requiredRoles && negb hasRequiredRole
      then Some (false,
                 [Alert "You do not have permission to access this page.";
                  Redirect "/index.html"])
      else Some (true, [])
  end.

(** [signOut]. *)
Definition signOut (error : bool) : list PageEffect :=
  if negb error then [Redirect "/index.html"] else [].

(** How a call of [updateUserRole] ends. *)
Inductive UpdateResult : Type :=
| Updated
| ThrewInvalidRole
| ThrewUpsertError.

(** [upsert({id, role, ...})] on the table. *)
Definition upsert (userId role : string) (t : Profiles) : Profiles :=
  fun k => if String.eqb k userId then Some role else t k.

(** [updateUserRole(userId, role)]. *)
Definition updateUserRole (upsertError : bool) (userId role : string)
    (t : Profiles) : UpdateResult * Profiles :=
  if negb (existsb (String.eqb role) ROLES_values)
  then (ThrewInvalidRole, t)
  else if upsertError then (ThrewUpsertError, t)
  else (Updated, upsert userId role t).

End Roles.

(** ** The register button of [app.js] and the gallery *)

Module Registration.
Import App.

(** A row of the [students] table. *)
Record Student : Type := mkStudent {
  name : string;
  face_descriptor : Descriptor
}.

(** The [students] table and the page's [labeledFaceDescriptors]. *)
Record Page : Type := mkPage {
  students : list Student;
  gallery : list LabeledFaceDescriptors
}.

(** What the query [supabase.from('students').select('*')] yields: an
    error, or the rows.  The query names no order, so the rows come in
    whatever order the database returns them. *)
Inductive SelectResult : Type :=
| SelectError
| Selected (rows : list Student).

(** [loadLabeledImages]: one entry per returned row, in the order of the
    rows, each with the one stored descriptor; the empty gallery when the
    query reports an error.  The stored numbers are the values of a
    [Float32Array], so building a [Float32Array] from them changes nothing. *)
Definition loadLabeledImages (q : SelectResult)
    : list LabeledFaceDescriptors * list Effect :=
  match q with
  | SelectError => ([], [ConsoleError "Error loading students:"])
  | Selected rows =>
      (map (fun student => mkLabeled (name student) [face_descriptor student]) rows, [])
  end.

(** The click handler of [registerButton]; [name] is the value of the name
    input, [insertError] says whether the insert reports an error, and
    [reload] is what the reloading query yields.  [students] holds the rows
    of the table; the order of the list means nothing to the handler. *)
Definition registerClick (name : string) (w : World)
    (insertError : bool) (reload : SelectResult) (page : Page) : list Effect * Page :=
  if String.eqb name "" then ([Alert "Please enter a name"], page)
  else
    let (faceDescriptor, detecting) := detectFace w in
    match faceDescriptor with
    | JS.Throw _ => (detecting ++ [Rejected], page)
    | JS.Normal (Some faceDescriptor) =>
        if insertError
        then
          (detecting ++ [ConsoleError "Error registering face:";
                         Alert "Error registering face. See console for details."],
           page)
        else
          let table := students page ++ [mkStudent name faceDescriptor] in
          let (loaded, loading) := loadLabeledImages reload in
          (detecting ++ [Alert "Face registered successfully!"] ++ loading,
           {| students := table; gallery := loaded |})
    | JS.Normal None => (detecting, page)
    end.

(** What the recognise handler finds after a page state was reached. *)
Definition worldOf (w : World) (page : Page) : World :=
  {| video := video w;
     detections := detections w;
     labeledFaceDescriptors := gallery page;
     insertError := App.insertError w |}.

Definition isInsertAttendance (e : Effect) : bool :=
  match e with
  | InsertAttendance _ => true
  | _ => false
  end.

Definition isAlert (e : Effect) : bool :=
  match e with
  | Alert _ => true
  | _ => false
  end.

End Registration.

(** ** The export button of [app.js] *)

Module CsvExport.
Local Open Scope string_scope.

(** A row of the [attendance] table. *)
Record AttendanceRow : Type := mkAttendanceRow {
  student_name : string;
  created_at : string
}.

(** What the query yields: an error, or the rows (possibly [null]). *)
Inductive QueryResult : Type :=
| QueryError
| Rows (attendanceRecords : option (list AttendanceRow)).

(** How a click ends; the downloaded content is given before [encodeURI]. *)
Inductive Outcome : Type :=
| LoggedError
| AlertedNoRecords
| Downloaded (csvContent : string).

Definition nl : string := String (Ascii.ascii_of_nat 10) EmptyString.

Section Locale.

(** [new Date(s).toLocaleDateString()] and [toLocaleTimeString()],
    built-ins of the language, taken as given. *)
Variable toLocaleDateString : string -> string.
Variable toLocaleTimeString : string -> string.

Definition csvLine (record : AttendanceRow) : string :=
  let date := toLocaleDateString (created_at record) in
  let time := toLocaleTimeString (created_at record) in
  student_name record ++ "," ++ date ++ "," ++ time.

Definition csvContent (attendanceRecords : list AttendanceRow) : string :=
  "data:text/csv;charset=utf-8,"
  ++ String.concat nl (["Name,Date,Time"] ++ map csvLine attendanceRecords)%list.

(** The click handler of [exportButton]. *)
Definition exportClick (q : QueryResult) : Outcome :=
  match q with
  | QueryError => LoggedError
  | Rows None => AlertedNoRecords
  | Rows (Some attendanceRecords) =>
      if (List.length attendanceRecords =? 0)%nat then AlertedNoRecords
      else Downloaded (csvContent attendanceRecords)
  end.

End Locale.

(** How often a character occurs in a string. *)
Fixpoint occurrences (c : Ascii.ascii) (s : string) : nat :=
  match s with
  | EmptyString => 0
  | String a rest => (if Ascii.eqb a c then 1 else 0) + occurrences c rest
  end.

Definition newline : Ascii.ascii := Ascii.ascii_of_nat 10.

End CsvExport.

(** ** Facts about binary64 arithmetic *)

Module FloatFacts.

Lemma SFadd_comm (prec emax : Z) (a b : spec_float) :
  SFadd prec emax a b = SFadd prec emax b a.
Proof.
  destruct a as [sa | sa | | sa ma ea], b as [sb | sb | | sb mb eb];
    cbn [SFadd]; try reflexivity;
    try (destruct sa, sb; reflexivity).
  rewrite (Z.min_comm ea eb).
  now rewrite Z.add_comm.
Qed.

(** Addition of JavaScript numbers is commutative. *)
Lemma add_comm (a b : float) : (a + b = b + a)%float.
Proof.
  rewrite <- (SF2Prim_Prim2SF (a + b)), <- (SF2Prim_Prim2SF (b + a)).
  f_equal.
  rewrite !add_spec.
  apply SFadd_comm.
Qed.

End FloatFacts.

(** ** The blink predicate *)

Module BlinkFacts.
Import JS AntiSpoofing.

(** On an eye of six points [calculateEAR] returns normally, with the
    ratio the specification names. *)
Lemma calculateEAR_six_points (eye : list Point) :
  List.length eye = 6 -> calculateEAR eye = Normal (Spec.eyeEAR eye).
Proof.
  intros Hlen.
  do 6 (destruct eye as [| ? eye]; [discriminate Hlen |]).
  destruct eye; [| discriminate Hlen].
  cbn.
  unfold Spec.eyeEAR, Spec.EAR, Spec.dist, Spec.landmark, Math_sqrt, Math_pow_2.
  cbn [nth x y].
  (* the two vertical distances are written with the y term first *)
  now rewrite !(FloatFacts.add_comm (PrimFloat.mul (PrimFloat.sub (y _) (y _)) _)).
Qed.

(** An eye with fewer than six points makes [calculateEAR] throw. *)
Lemma calculateEAR_too_few (eye : list Point) :
  List.length eye < 6 -> calculateEAR eye = Throw TypeError.
Proof.
  intros Hlen.
  do 6 (destruct eye as [| ? eye]; [reflexivity |]).
  cbn in Hlen. lia.
Qed.

(** Without landmarks, or with an eye of fewer than six points,
    [detectBlink] returns [false]: the guard, or the [catch] clause. *)
Lemma detectBlink_too_few (lm : option Landmarks) :
  Spec.tooFewLandmarks lm -> detectBlink lm = false.
Proof.
  destruct lm as [[l r] |]; [| reflexivity].
  cbn. intros [Hl | Hr].
  - unfold detectBlink_try. cbn.
    now rewrite (calculateEAR_too_few l Hl).
  - unfold detectBlink_try. cbn.
    rewrite (calculateEAR_too_few r Hr).
    now destruct (calculateEAR l).
Qed.

(** C6: on landmarks with six points per eye, [detectBlink] is the
    specification's blink predicate: each eye's aspect ratio is
    (dist(p1,p5) + dist(p2,p4)) / (2 * dist(p0,p3)), the two ratios are
    averaged, and a blink is reported exactly when the average is strictly
    below 0.25. *)
Theorem detectBlink_is_EAR_below_threshold (lm : Landmarks) :
  Spec.wellFormed lm ->
  detectBlink (Some lm) = Spec.blinkPredicate lm.
Proof.
  intros [Hl Hr].
  unfold detectBlink, detectBlink_try.
  rewrite (calculateEAR_six_points _ Hl), (calculateEAR_six_points _ Hr).
  reflexivity.
Qed.

Lemma detectBlink_is_EAR_below_threshold_witness :
  Spec.wellFormed Scenario.closedEyes /\
  detectBlink (Some Scenario.closedEyes) = Spec.blinkPredicate Scenario.closedEyes.
Proof.
  split.
  - split; reflexivity.
  - apply (detectBlink_is_EAR_below_threshold Scenario.closedEyes).
    split; reflexivity.
Defined.

(** The two sample eyes: the open one has ratio 1/3, the closed one 1/15. *)
Example open_eyes_do_not_blink :
  detectBlink (Some Scenario.openEyes) = false /\
  detectBlink (Some Scenario.closedEyes) = true.
Proof. split; reflexivity. Qed.

End BlinkFacts.

(** ** The spoof scorer *)

Module SpoofFacts.
Import JS AntiSpoofing.

(** With both arguments present the verdict carries its details. *)
Lemma detectSpoofing_details (d : Detection) (v : Video) (g : Globals) :
  option_map sizeConsistency (details (fst (detectSpoofing (Some d) (Some v) g)))
  = Some (gt (faceRatioOf (box d) v) 0.05 && lt (faceRatioOf (box d) v) 0.4).
Proof. reflexivity. Qed.

(** C7: [sizeConsistency] is true exactly when the face ratio
    (box.width * box.height) / (videoWidth * videoHeight) is strictly
    between 0.05 and 0.4; when the ratio is 0.05 or 0.4 itself it is
    false. *)
Theorem sizeConsistency_open_interval (d : Detection) (v : Video) (g : Globals) :
  let faceRatio :=
    ((width (box d) * height (box d)) / (videoWidth v * videoHeight v))%float in
  let reported :=
    option_map sizeConsistency (details (fst (detectSpoofing (Some d) (Some v) g))) in
  (reported = Some true <->
   PrimFloat.ltb 0.05 faceRatio = true /\ PrimFloat.ltb faceRatio 0.4 = true) /\
  (faceRatio = 0.05%float \/ faceRatio = 0.4%float -> reported = Some false).
Proof.
  intros faceRatio reported.
  assert (Hrep : reported
                 = Some (PrimFloat.ltb 0.05 faceRatio && PrimFloat.ltb faceRatio 0.4))
    by apply detectSpoofing_details.
  rewrite Hrep. split.
  - split.
    + intros H. injection H as H. now apply andb_true_iff.
    + intros H. f_equal. now apply andb_true_iff.
  - intros [-> | ->]; reflexivity.
Qed.

(** The boundaries are reached: a 1 x 1 face in a 20 x 1 frame has ratio
    0.05 and a 2 x 1 face in a 5 x 1 frame has ratio 0.4; a 2 x 1 face in a
    10 x 1 frame lies inside the interval. *)
Lemma sizeConsistency_open_interval_witness :
  let verdictFor w vw :=
    option_map sizeConsistency
      (details (fst (detectSpoofing (Some (mkDetection None (mkBox 0 0 w 1)))
                                    (Some (mkVideo vw 1)) initialGlobals))) in
  verdictFor 1%float 20%float = Some false /\
  verdictFor 2%float 5%float = Some false /\
  verdictFor 2%float 10%float = Some true.
Proof.
  pose proof (sizeConsistency_open_interval
                (mkDetection None (mkBox 0 0 1 1)) (mkVideo 20 1) initialGlobals) as Hlow.
  pose proof (sizeConsistency_open_interval
                (mkDetection None (mkBox 0 0 2 1)) (mkVideo 5 1) initialGlobals) as Hhigh.
  pose proof (sizeConsistency_open_interval
                (mkDetection None (mkBox 0 0 2 1)) (mkVideo 10 1) initialGlobals) as Hin.
  cbv zeta in Hlow, Hhigh, Hin.
  split; [| split].
  - apply Hlow. left. reflexivity.
  - apply Hhigh. right. reflexivity.
  - apply Hin. split; reflexivity.
Defined.

(** C10: when the detection or the video argument is absent the scorer
    returns {isSpoofed: false, confidence: 0} and leaves every module
    variable, the stored last face position among them, as it was. *)
Theorem detectSpoofing_absent_argument
    (detection : option Detection) (video : option Video) (g : Globals) :
  detection = None \/ video = None ->
  detectSpoofing detection video g
  = ({| isSpoofed := false; confidence := 0%float; details := None |}, g).
Proof.
  intros [-> | ->].
  - reflexivity.
  - now destruct detection.
Qed.

Lemma detectSpoofing_absent_argument_witness :
  (Some Scenario.fullFrameFace = None \/ @None Video = None) /\
  detectSpoofing (Some Scenario.fullFrameFace) None Scenario.afterOneFrame
  = ({| isSpoofed := false; confidence := 0%float; details := None |},
     Scenario.afterOneFrame).
Proof.
  split.
  - right. reflexivity.
  - apply (detectSpoofing_absent_argument (Some Scenario.fullFrameFace) None).
    right. reflexivity.
Defined.

(** C2, as stated, fails: the same detection and video scored twice in a
    row give two different verdicts, the first not spoofed (confidence
    0.42), the second spoofed (confidence 0.546), because the first call
    stored the face centre in the module variable the second call reads. *)
Lemma detectSpoofing_same_arguments_different_verdicts :
  let first :=
    detectSpoofing (Some Scenario.fullFrameFace) (Some Scenario.camera) initialGlobals in
  let second :=
    detectSpoofing (Some Scenario.fullFrameFace) (Some Scenario.camera) (snd first) in
  isSpoofed (fst first) = false /\
  isSpoofed (fst second) = true /\
  lastFacePosition initialGlobals = None /\
  lastFacePosition (snd first) = Some (mkPoint 360 280) /\
  fst first <> fst second.
Proof.
  cbv zeta.
  repeat split; try reflexivity.
  intros H. apply (f_equal isSpoofed) in H. discriminate H.
Qed.

(** C2, amended: the verdict is a function of the two arguments and of the
    stored last face position, and of nothing else; a call with both
    arguments present overwrites the stored position with the centre of
    the face box and changes no other module variable. *)
Theorem detectSpoofing_function_of_arguments_and_last_position
    (detection : option Detection) (video : option Video) (g1 g2 : Globals) :
  lastFacePosition g1 = lastFacePosition g2 ->
  fst (detectSpoofing detection video g1) = fst (detectSpoofing detection video g2) /\
  snd (detectSpoofing detection video g1)
  = match detection, video with
    | Some d, Some _ => set_lastFacePosition (Some (centerOf (box d))) g1
    | _, _ => g1
    end.
Proof.
  intros Hlast.
  destruct detection as [d |], video as [v |]; cbn; try (split; reflexivity).
  rewrite Hlast. split; reflexivity.
Qed.

Lemma detectSpoofing_function_of_arguments_and_last_position_witness :
  lastFacePosition initialGlobals
  = lastFacePosition (set_blinkCount 7 (set_headMovementDetected true initialGlobals)) /\
  fst (detectSpoofing (Some Scenario.fullFrameFace) (Some Scenario.camera) initialGlobals)
  = fst (detectSpoofing (Some Scenario.fullFrameFace) (Some Scenario.camera)
           (set_blinkCount 7 (set_headMovementDetected true initialGlobals))).
Proof.
  split.
  - reflexivity.
  - apply (detectSpoofing_function_of_arguments_and_last_position
             (Some Scenario.fullFrameFace) (Some Scenario.camera) initialGlobals
             (set_blinkCount 7 (set_headMovementDetected true initialGlobals))
             eq_refl).
Defined.

End SpoofFacts.

(** ** The liveness session *)

Module LivenessFacts.
Import JS AntiSpoofing.

(** What the [try] block of one frame does to the module variables. *)
Lemma frame_effect (cb : ProgressCallback) (n : nat) (r : DetectorResult) (g : Globals) :
  let g' := tryCatch (detectLiveness_try cb n r) g in
  blinkCount g'
  = blinkCount g + (if Spec.rawBlink r && (n mod 5 =? 0) then 1 else 0) /\
  (headMovementDetected g = true -> headMovementDetected g' = true) /\
  blinkDetectionActive g' = blinkDetectionActive g.
Proof.
  unfold tryCatch, detectLiveness_try, sbind.
  destruct r as [| | d]; [cbn; repeat split; auto .. |].
  cbn [awaitDetection sret Spec.rawBlink].
  destruct (detectBlink (landmarks d) && (n mod 5 =? 0)); cbn;
    [destruct cb as [callback |]; cbn;
     [match goal with |- context [callback ?p] => destruct (callback p) end; cbn |] |];
    try (destruct (lastFacePosition g) as [last |]; cbn;
         [match goal with
          | |- context [PrimFloat.ltb ?a ?b] => destruct (PrimFloat.ltb a b)
          end; cbn |]);
    repeat split; auto; lia.
Qed.

(** A call of the frame callback that schedules the next one has
    processed frame number [S frameCount]. *)
Lemma detectLiveness_scheduled (cb : ProgressCallback) (r : DetectorResult)
    (g g' : Globals) (fc fc' : nat) :
  detectLiveness cb g fc r = Scheduled g' fc' ->
  fc' = S fc /\ fc < maxFrames /\
  blinkDetectionActive g = true /\
  g' = tryCatch (detectLiveness_try cb (S fc) r) g.
Proof.
  unfold detectLiveness.
  destruct (blinkDetectionActive g); cbn [negb orb]; [| discriminate].
  destruct (Nat.leb_spec maxFrames fc) as [Hge | Hlt]; [discriminate |].
  intros H. injection H as <- <-. auto.
Qed.

(** A call that resolves the promise reports the module variables as
    they are and changes only [blinkDetectionActive]. *)
Lemma detectLiveness_resolved (cb : ProgressCallback) (r : DetectorResult)
    (g g' : Globals) (fc : nat) (v : LivenessVerdict) :
  detectLiveness cb g fc r = Resolved v g' ->
  v = {| success := (requiredBlinks <=? blinkCount g) && headMovementDetected g;
         blinks := blinkCount g;
         headMovement := headMovementDetected g |} /\
  blinkCount g' = blinkCount g /\
  headMovementDetected g' = headMovementDetected g /\
  lastFacePosition g' = lastFacePosition g.
Proof.
  unfold detectLiveness.
  destruct (negb _ || _); intros H; [| discriminate H].
  injection H as <- <-. repeat split.
Qed.

(** An active session below [maxFrames] processes the next frame. *)
Lemma detectLiveness_runs (cb : ProgressCallback) (r : DetectorResult)
    (g : Globals) (fc : nat) :
  blinkDetectionActive g = true ->
  fc < maxFrames ->
  detectLiveness cb g fc r
  = Scheduled (tryCatch (detectLiveness_try cb (S fc) r) g) (S fc).
Proof.
  intros Hact Hlt.
  unfold detectLiveness. rewrite Hact.
  destruct (Nat.leb_spec maxFrames fc) as [Hge | _]; [lia | reflexivity].
Qed.

(** The same for the scheduled callbacks, which first see a stop request. *)
Lemma tick_scheduled (cb : ProgressCallback) (frames : FrameSource)
    (g g' : Globals) (fc fc' : nat) :
  tick cb frames g fc = Scheduled g' fc' ->
  fc' = S fc /\ fc < maxFrames /\
  stopRequested (frames (S fc)) = false /\
  blinkDetectionActive g = true /\
  g' = tryCatch (detectLiveness_try cb (S fc) (detectorResult (frames (S fc)))) g.
Proof.
  unfold tick.
  destruct (stopRequested (frames (S fc))); intros Hcall.
  - apply detectLiveness_scheduled in Hcall as (_ & _ & Hact & _).
    discriminate Hact.
  - apply detectLiveness_scheduled in Hcall as (-> & Hlt & Hact & ->). auto.
Qed.

Lemma tick_resolved (cb : ProgressCallback) (frames : FrameSource)
    (g g' : Globals) (fc : nat) (v : LivenessVerdict) :
  tick cb frames g fc = Resolved v g' ->
  v = {| success := (requiredBlinks <=? blinkCount g) && headMovementDetected g;
         blinks := blinkCount g;
         headMovement := headMovementDetected g |} /\
  blinkCount g' = blinkCount g /\
  headMovementDetected g' = headMovementDetected g /\
  lastFacePosition g' = lastFacePosition g.
Proof.
  unfold tick.
  destruct (stopRequested (frames (S fc))); intros Hcall;
    apply detectLiveness_resolved in Hcall; exact Hcall.
Qed.

Lemma tick_runs (cb : ProgressCallback) (frames : FrameSource) (g : Globals) (fc : nat) :
  blinkDetectionActive g = true ->
  fc < maxFrames ->
  stopRequested (frames (S fc)) = false ->
  tick cb frames g fc
  = Scheduled (tryCatch (detectLiveness_try cb (S fc) (detectorResult (frames (S fc)))) g)
              (S fc).
Proof.
  intros Hact Hlt Hstop.
  unfold tick. rewrite Hstop. now apply detectLiveness_runs.
Qed.

(** Running [j + k] callbacks is running [j] and then [k] more. *)
Lemma frameLoop_add (cb : ProgressCallback) (frames : FrameSource) (j k : nat) :
  forall (g : Globals) (fc : nat),
    frameLoop (j + k) cb frames g fc
    = match frameLoop j cb frames g fc with
      | Resolved v g' => Resolved v g'
      | Scheduled g' fc' => frameLoop k cb frames g' fc'
      end.
Proof.
  induction j as [| j IH]; intros g fc.
  - reflexivity.
  - cbn [Nat.add frameLoop].
    destruct (tick cb frames g fc) as [v g' | g' fc']; [reflexivity | apply IH].
Qed.

(** One more callback never lowers the counters. *)
Lemma tick_monotone (cb : ProgressCallback) (frames : FrameSource) (g : Globals) (fc : nat) :
  let g' := globalsOf (tick cb frames g fc) in
  blinkCount g <= blinkCount g' /\
  (headMovementDetected g = true -> headMovementDetected g' = true).
Proof.
  destruct (tick cb frames g fc) as [v g' | g' fc'] eqn:Htick; cbn.
  - apply tick_resolved in Htick as (_ & Hb & Hh & _).
    rewrite Hb, Hh. auto.
  - apply tick_scheduled in Htick as (_ & _ & _ & _ & ->).
    destruct (frame_effect cb (S fc) (detectorResult (frames (S fc))) g)
      as (Hb & Hh & _).
    cbv zeta in Hb. rewrite Hb. split; [lia | exact Hh].
Qed.

Lemma frameLoop_monotone (cb : ProgressCallback) (frames : FrameSource) (k : nat) :
  forall (g : Globals) (fc : nat),
    let g' := globalsOf (frameLoop k cb frames g fc) in
    blinkCount g <= blinkCount g' /\
    (headMovementDetected g = true -> headMovementDetected g' = true).
Proof.
  induction k as [| k IH]; intros g fc; cbn [frameLoop].
  - cbn. auto.
  - pose proof (tick_monotone cb frames g fc) as Hstep. cbv zeta in Hstep.
    destruct (tick cb frames g fc) as [v g1 | g1 fc1]; [exact Hstep |].
    cbn in Hstep. specialize (IH g1 fc1). cbv zeta in IH.
    destruct Hstep as [Hb Hh], IH as [Hb' Hh'].
    split; [lia | auto].
Qed.

(** From [frameCount <= maxFrames], enough callbacks resolve the promise. *)
Lemma frameLoop_resolves (cb : ProgressCallback) (frames : FrameSource) (fuel : nat) :
  forall (g : Globals) (fc : nat),
    fc <= maxFrames -> maxFrames < fuel + fc ->
    exists v g', frameLoop fuel cb frames g fc = Resolved v g'.
Proof.
  induction fuel as [| fuel IH]; intros g fc Hle Hfuel.
  - cbn in Hfuel. lia.
  - cbn [frameLoop].
    destruct (tick cb frames g fc) as [v g' | g' fc'] eqn:Htick.
    + now exists v, g'.
    + apply tick_scheduled in Htick as (-> & Hlt & _).
      apply IH; lia.
Qed.

(** Whenever the promise resolves, the verdict is computed from the module
    variables as the session leaves them. *)
Lemma frameLoop_verdict (cb : ProgressCallback) (frames : FrameSource) (fuel : nat) :
  forall (g g' : Globals) (fc : nat) (v : LivenessVerdict),
    frameLoop fuel cb frames g fc = Resolved v g' ->
    success v = (requiredBlinks <=? blinks v) && headMovement v /\
    blinks v = blinkCount g' /\
    headMovement v = headMovementDetected g'.
Proof.
  induction fuel as [| fuel IH]; intros g g' fc v Hrun; cbn [frameLoop] in Hrun.
  - discriminate Hrun.
  - destruct (tick cb frames g fc) as [v1 g1 | g1 fc1] eqn:Htick.
    + injection Hrun as -> ->.
      apply tick_resolved in Htick as (-> & Hb & Hh & _).
      cbn. now rewrite Hb, Hh.
    + now apply (IH g1 g' fc1 v).
Qed.

(** C1: for every frame source, callback and prior module state,
    [verifyLiveness] resolves, and its verdict reports success exactly
    when the reported blink count is at least 2 and head movement was
    detected; a verdict with fewer than 2 blinks or without head movement
    is never a success.  The reported values are the session's own
    [blinkCount] and [headMovementDetected]. *)
Theorem verifyLiveness_success_needs_blinks_and_movement
    (cb : ProgressCallback) (frames : FrameSource) (g : Globals) :
  exists v g',
    verifyLiveness cb frames g = Some (v, g') /\
    success v = (2 <=? blinks v) && headMovement v /\
    (blinks v < 2 \/ headMovement v = false -> success v = false) /\
    blinks v = blinkCount g' /\
    headMovement v = headMovementDetected g'.
Proof.
  assert (Hrun : exists v g', sessionAfter (S maxFrames) cb frames g = Resolved v g' /\
                  success v = (requiredBlinks <=? blinks v) && headMovement v /\
                  blinks v = blinkCount g' /\
                  headMovement v = headMovementDetected g').
  { cbn [sessionAfter].
    destruct (detectLiveness cb (startSession g) 0 (detectorResult (frames 1)))
      as [v g' | g1 fc1] eqn:Hfirst.
    - exists v, g'. split; [reflexivity |].
      apply detectLiveness_resolved in Hfirst as (-> & Hb & Hh & _).
      cbn. now rewrite Hb, Hh.
    - apply detectLiveness_scheduled in Hfirst as (-> & _).
      destruct (frameLoop_resolves cb frames maxFrames g1 1) as (v & g' & Hloop);
        [unfold maxFrames; lia | lia |].
      exists v, g'. split; [exact Hloop |].
      exact (frameLoop_verdict _ _ _ _ _ _ _ Hloop). }
  destruct Hrun as (v & g' & Hrun & Hs & Hb & Hh).
  exists v, g'.
  unfold verifyLiveness, verifyLiveness_fuel. rewrite Hrun.
  change requiredBlinks with 2 in Hs.
  repeat split; auto.
  intros [Hlt | Hno]; rewrite Hs.
  - apply Nat.leb_gt in Hlt. now rewrite Hlt.
  - rewrite Hno. apply andb_false_r.
Qed.

(** Between any two points of a chain of callbacks the counters only grow. *)
Lemma frameLoop_counters_monotone
    (cb : ProgressCallback) (frames : FrameSource) (g : Globals) (fc j k : nat) :
  j <= k ->
  let earlier := globalsOf (frameLoop j cb frames g fc) in
  let later := globalsOf (frameLoop k cb frames g fc) in
  blinkCount earlier <= blinkCount later /\
  (headMovementDetected earlier = true -> headMovementDetected later = true).
Proof.
  intros Hjk earlier later. subst earlier later.
  replace k with (j + (k - j)) by lia.
  rewrite frameLoop_add.
  destruct (frameLoop j cb frames g fc) as [v g1 | g1 fc1]; cbn [globalsOf].
  - auto.
  - apply frameLoop_monotone.
Qed.

(** C8: within a session, from its start through every callback up to and
    including the one that resolves it, [blinkCount] never decreases and
    [headMovementDetected], once true, stays true. *)
Theorem session_counters_monotone
    (cb : ProgressCallback) (frames : FrameSource) (g : Globals) (j k : nat) :
  j <= k ->
  let earlier := globalsOf (sessionAfter j cb frames g) in
  let later := globalsOf (sessionAfter k cb frames g) in
  blinkCount earlier <= blinkCount later /\
  (headMovementDetected earlier = true -> headMovementDetected later = true).
Proof.
  intros Hjk earlier later. subst earlier later.
  destruct j as [| j].
  - cbn. split; [lia | discriminate].
  - destruct k as [| k]; [lia |].
    cbn [sessionAfter].
    destruct (detectLiveness cb (startSession g) 0 (detectorResult (frames 1)))
      as [v g1 | g1 fc1].
    + auto.
    + apply frameLoop_counters_monotone. lia.
Qed.

Lemma session_counters_monotone_witness :
  4 <= 101 /\
  blinkCount (globalsOf (sessionAfter 4 None Scenario.scenarioA initialGlobals))
  <= blinkCount (globalsOf (sessionAfter 101 None Scenario.scenarioA initialGlobals)) /\
  (headMovementDetected
     (globalsOf (sessionAfter 4 None Scenario.scenarioA initialGlobals)) = true ->
   headMovementDetected
     (globalsOf (sessionAfter 101 None Scenario.scenarioA initialGlobals)) = true).
Proof.
  split.
  - lia.
  - apply (session_counters_monotone None Scenario.scenarioA initialGlobals 4 101).
    lia.
Defined.

(** Stepping from [n] to [S n] passes one more multiple of 5 exactly when
    [S n] is one. *)
Lemma div5_succ (n : nat) :
  S n / 5 = n / 5 + (if S n mod 5 =? 0 then 1 else 0).
Proof.
  pose proof (Nat.div_mod_eq n 5) as Hn.
  pose proof (Nat.div_mod_eq (S n) 5) as HSn.
  pose proof (Nat.mod_upper_bound n 5) as Hn5.
  pose proof (Nat.mod_upper_bound (S n) 5) as HSn5.
  destruct (Nat.eqb_spec (S n mod 5) 0); lia.
Qed.

(** While the raw blink predicate holds on every frame, [blinkCount]
    grows by the number of multiples of 5 among the frame numbers. *)
Lemma held_blink_count (cb : ProgressCallback) (frames : FrameSource) (k : nat) :
  forall (g : Globals) (fc : nat),
    blinkDetectionActive g = true ->
    fc + k <= maxFrames ->
    (forall n, fc < n <= fc + k ->
               stopRequested (frames n) = false /\
               Spec.rawBlink (detectorResult (frames n)) = true) ->
    exists g',
      frameLoop k cb frames g fc = Scheduled g' (fc + k) /\
      blinkCount g' + fc / 5 = blinkCount g + (fc + k) / 5.
Proof.
  induction k as [| k IH]; intros g fc Hact Hmax Hheld.
  - exists g. rewrite Nat.add_0_r. split; reflexivity.
  - destruct (Hheld (S fc)) as [Hstop Hblink]; [lia |].
    cbn [frameLoop].
    rewrite (tick_runs cb frames g fc Hact) by (lia || exact Hstop).
    set (g1 := tryCatch _ g).
    destruct (frame_effect cb (S fc) (detectorResult (frames (S fc))) g)
      as (Hcount & _ & Hact1).
    cbv zeta in Hcount. fold g1 in Hcount, Hact1.
    rewrite Hblink in Hcount. cbn [andb] in Hcount.
    destruct (IH g1 (S fc)) as (g' & Hrun & Hsum).
    + now rewrite Hact1.
    + lia.
    + intros n Hn. apply Hheld. lia.
    + exists g'. replace (fc + S k) with (S fc + k) by lia.
      split; [exact Hrun |].
      pose proof (div5_succ fc) as Hdiv. lia.
Qed.

(** C5: a processed frame increments [blinkCount] exactly when its raw
    blink predicate holds and its frame number is a multiple of 5, and by
    one; so a blink predicate held over 10 consecutive frames increments
    [blinkCount] by exactly 2. *)
Theorem blink_counting_debounced
    (cb : ProgressCallback) (frames : FrameSource) (g : Globals) (fc : nat) :
  (forall g' fc',
      tick cb frames g fc = Scheduled g' fc' ->
      blinkCount g'
      = blinkCount g
        + (if Spec.rawBlink (detectorResult (frames fc')) && (fc' mod 5 =? 0)
           then 1 else 0)) /\
  (blinkDetectionActive g = true ->
   fc + 10 <= maxFrames ->
   (forall n, fc < n <= fc + 10 ->
              stopRequested (frames n) = false /\
              Spec.rawBlink (detectorResult (frames n)) = true) ->
   exists g',
     frameLoop 10 cb frames g fc = Scheduled g' (fc + 10) /\
     blinkCount g' = blinkCount g + 2).
Proof.
  split.
  - intros g' fc' Htick.
    apply tick_scheduled in Htick as (-> & _ & _ & _ & ->).
    apply frame_effect.
  - intros Hact Hmax Hheld.
    destruct (held_blink_count cb frames 10 g fc Hact Hmax Hheld)
      as (g' & Hrun & Hsum).
    exists g'. split; [exact Hrun |].
    replace (fc + 10) with (fc + 2 * 5) in Hsum by lia.
    rewrite Nat.div_add in Hsum by discriminate.
    lia.
Qed.

(** Ten frames of closed eyes, frames 18 to 27 of a running session: two
    blinks are counted, at frames 20 and 25. *)
Lemma blink_counting_debounced_witness :
  let closed : FrameSource :=
    fun _ => {| stopRequested := false;
                detectorResult :=
                  Face {| landmarks := Some Scenario.closedEyes;
                          box := Scenario.boxAt 100 |} |} in
  exists g',
    frameLoop 10 None closed Scenario.afterOneFrame 17 = Scheduled g' 27 /\
    blinkCount g' = 2.
Proof.
  intros closed.
  destruct (blink_counting_debounced None closed Scenario.afterOneFrame 17)
    as [_ Hten].
  apply Hten.
  - reflexivity.
  - unfold maxFrames. lia.
  - intros n _. split; reflexivity.
Defined.

(** C9, as stated, fails.  A frame whose landmark set is missing still
    updates the movement state: the stored position is overwritten and
    [headMovementDetected] is set by the 20 pixel move.  And a frame whose
    eyes carry seven points each is scored on the first six: a blink is
    reported and, at frame 5, counted. *)
Lemma malformed_landmarks_still_update_state :
  Spec.tooFewLandmarks None /\
  headMovementDetected Scenario.afterOneFrame = false /\
  tick None Scenario.movedWithoutLandmarks Scenario.afterOneFrame 1
  = Scheduled {| blinkCount := 0;
                 headMovementDetected := true;
                 lastFacePosition := Some (mkPoint 220 200);
                 blinkDetectionActive := true |} 2 /\
  List.length (getLeftEye Scenario.sevenPointEyes) = 7 /\
  detectBlink (Some Scenario.sevenPointEyes) = true /\
  blinkCount (globalsOf (tick None Scenario.sevenPointFrame Scenario.afterOneFrame 4)) = 1.
Proof. repeat split; reflexivity. Qed.

(** C9, amended: when a frame's landmark set is missing or one of its eyes
    has fewer than six points, [detectBlink] returns false instead of
    raising, the frame leaves [blinkCount] unchanged and the session goes
    on to the next frame; the head-movement update is made all the same,
    from the frame's face box. *)
Theorem too_few_landmarks_no_blink
    (cb : ProgressCallback) (g : Globals) (fc : nat) (d : Detection) :
  Spec.tooFewLandmarks (landmarks d) ->
  blinkDetectionActive g = true ->
  fc < maxFrames ->
  detectBlink (landmarks d) = false /\
  exists g',
    detectLiveness cb g fc (Face d) = Scheduled g' (S fc) /\
    blinkCount g' = blinkCount g /\
    lastFacePosition g' = Some (centerOf (box d)) /\
    headMovementDetected g'
    = headMovementDetected g
      || match lastFacePosition g with
         | Some last => gt (movementBetween (centerOf (box d)) last) 10
         | None => false
         end.
Proof.
  intros Hfew Hact Hlt.
  pose proof (BlinkFacts.detectBlink_too_few _ Hfew) as Hblink.
  split; [exact Hblink |].
  unfold detectLiveness. rewrite Hact.
  destruct (Nat.leb_spec maxFrames fc) as [Hge | _]; [lia |].
  cbn [negb orb]. eexists. split; [reflexivity |].
  unfold tryCatch, detectLiveness_try, sbind.
  cbn [awaitDetection sret]. rewrite Hblink. cbn [andb sret sget].
  destruct (lastFacePosition g) as [last |] eqn:Hlast.
  - destruct (gt (movementBetween (centerOf (box d)) last) 10); cbn;
      repeat split; auto using orb_true_r, orb_false_r.
  - cbn. repeat split; auto using orb_false_r.
Qed.

Lemma too_few_landmarks_no_blink_witness :
  Spec.tooFewLandmarks (Some Scenario.fivePointLeftEye) /\
  detectBlink (Some Scenario.fivePointLeftEye) = false /\
  exists g',
    detectLiveness None Scenario.afterOneFrame 4
      (Face (mkDetection (Some Scenario.fivePointLeftEye) (Scenario.boxAt 120)))
    = Scheduled g' 5 /\
    blinkCount g' = 0 /\
    lastFacePosition g' = Some (mkPoint 220 200) /\
    headMovementDetected g' = true.
Proof.
  split.
  - left. cbn. lia.
  - apply (too_few_landmarks_no_blink None Scenario.afterOneFrame 4
             (mkDetection (Some Scenario.fivePointLeftEye) (Scenario.boxAt 120))).
    + left. cbn. lia.
    + reflexivity.
    + unfold maxFrames. lia.
Defined.

(** The first frame of scenario A leaves the face centre (200, 200)
    behind; whether it counts as a movement depends on the position an
    earlier session or spoof check left in [lastFacePosition]. *)
Lemma scenarioA_first_frame (g : Globals) :
  exists moved,
    detectLiveness None (startSession g) 0 (detectorResult (Scenario.scenarioA 1))
    = Scheduled {| blinkCount := 0;
                   headMovementDetected := moved;
                   lastFacePosition := Some (mkPoint 200 200);
                   blinkDetectionActive := true |} 1.
Proof.
  destruct g as [bc hm [p |] act].
  - cbv.
    match goal with
    | |- context [PrimFloat.ltb ?a ?b] => destruct (PrimFloat.ltb a b)
    end; eexists; reflexivity.
  - eexists. vm_compute. reflexivity.
Qed.

(** C4, as stated, fails: in scenario A each of the ten blink frames 5,
    10, ..., 50 is counted, so the verdict reports 10 blinks, not 2. *)
Lemma scenarioA_reports_ten_blinks :
  option_map fst (verifyLiveness None Scenario.scenarioA initialGlobals)
  = Some {| success := true; blinks := 10; headMovement := true |} /\
  option_map fst (verifyLiveness None Scenario.scenarioA initialGlobals)
  <> Some {| success := true; blinks := 2; headMovement := true |}.
Proof.
  split.
  - vm_compute. reflexivity.
  - vm_compute. discriminate.
Qed.

(** C4, amended: scenario A (300 frames, eyes closed at frames 5, 10, ...,
    50, one 20 pixel move between frames 100 and 101) ends with the verdict
    {success: true, blinks: 10, headMovement: true}, whatever the module
    state the session starts from. *)
Theorem scenarioA_verdict (g : Globals) :
  option_map fst (verifyLiveness None Scenario.scenarioA g)
  = Some {| success := true; blinks := 10; headMovement := true |}.
Proof.
  unfold verifyLiveness, verifyLiveness_fuel.
  cbn [sessionAfter].
  destruct (scenarioA_first_frame g) as [moved ->].
  destruct moved; vm_compute; reflexivity.
Qed.

End LivenessFacts.

(** ** The recognise handler *)

Module AppFacts.
Import App.

(** C3, as stated, fails: with an enrolled face in front of the camera
    the handler matches and marks attendance, and no liveness verification
    or spoof check has run before the match. *)
Lemma recognizeClick_matches_without_liveness :
  recognizeClick (returning nearestMatch) Scenario.enrolledFaceSeen
  = [DetectSingleFace;
     FindBestMatch [0.5; 0.25]%float;
     InsertAttendance "alice";
     ConsoleLog "Attendance marked for alice";
     Alert "Face recognized! Attendance marked for alice."] /\
  ~ livenessBeforeMatching
      (recognizeClick (returning nearestMatch) Scenario.enrolledFaceSeen).
Proof.
  assert (Htrace : recognizeClick (returning nearestMatch) Scenario.enrolledFaceSeen
                   = [DetectSingleFace;
                      FindBestMatch [0.5; 0.25]%float;
                      InsertAttendance "alice";
                      ConsoleLog "Attendance marked for alice";
                      Alert "Face recognized! Attendance marked for alice."])
    by (vm_compute; reflexivity).
  split; [exact Htrace |].
  rewrite Htrace. intros Hlive.
  specialize (Hlive [DetectSingleFace] _ _ eq_refl).
  destruct Hlive as [H | []]. discriminate H.
Qed.

(** C3, amended: a click on the recognise button captures one face
    descriptor and, when a face was found and the gallery is not empty,
    goes straight on to identity matching; no liveness verification and no
    spoof check is part of the attempt.  The attempt ends in exactly one of
    seven ways: nothing happens (no video element), the awaited detector
    rejects and with it the handler, no face detected, no registered faces,
    the matcher throws and with it the handler, recognised (attendance is
    inserted for the matched label), or not recognised.  A rejection shows
    no alert and marks no attendance. *)
Theorem recognizeClick_outcomes
    (findBestMatch : list LabeledFaceDescriptors -> float -> Descriptor -> option FaceMatch)
    (w : World) :
  let trace := recognizeClick findBestMatch w in
  existsb isAntiSpoofingCall trace = false /\
  ((video w = false /\ trace = [])
   \/ (video w = true /\ detections w = ChainRejects /\
       trace = [DetectSingleFace; Rejected])
   \/ (video w = true /\ detections w = ChainResolves None /\
       trace = [DetectSingleFace; Alert "No face detected. Please try again."])
   \/ (video w = true /\ labeledFaceDescriptors w = [] /\
       exists q, detections w = ChainResolves (Some q) /\
         trace = [DetectSingleFace; Alert "No registered faces found in the system."])
   \/ (video w = true /\ labeledFaceDescriptors w <> [] /\
       exists q, detections w = ChainResolves (Some q) /\
         findBestMatch (labeledFaceDescriptors w) 0.6%float q = None /\
         trace = [DetectSingleFace; FindBestMatch q; Rejected])
   \/ (video w = true /\ labeledFaceDescriptors w <> [] /\
       exists q bestMatch, detections w = ChainResolves (Some q) /\
         findBestMatch (labeledFaceDescriptors w) 0.6%float q = Some bestMatch /\
         match_label bestMatch <> "unknown"%string /\
         trace = ([DetectSingleFace; FindBestMatch q]
                  ++ markAttendance w (match_label bestMatch)
                  ++ [Alert ("Face recognized! Attendance marked for "
                             ++ match_label bestMatch ++ ".")%string])%list)
   \/ (video w = true /\ labeledFaceDescriptors w <> [] /\
       exists q bestMatch, detections w = ChainResolves (Some q) /\
         findBestMatch (labeledFaceDescriptors w) 0.6%float q = Some bestMatch /\
         match_label bestMatch = "unknown"%string /\
         trace = [DetectSingleFace; FindBestMatch q;
                  Alert "Face not recognized. Please register first."])).
Proof.
  unfold recognizeClick, detectFace.
  destruct w as [vid det known err]; cbn [video detections labeledFaceDescriptors].
  destruct vid; cbn [negb].
  2: { split; [reflexivity | left; split; reflexivity]. }
  destruct det as [| [q |]].
  { split; [reflexivity | right; left; repeat split; reflexivity]. }
  2: { split; [reflexivity | right; right; left; repeat split; reflexivity]. }
  destruct known as [| entry known]; cbn [List.length Nat.eqb].
  { split; [reflexivity |].
    right; right; right; left. repeat split. exists q. split; reflexivity. }
  destruct (findBestMatch (entry :: known) 0.6%float q) as [bestMatch |] eqn:Hmatch.
  2: { split; [reflexivity |].
       right; right; right; right; left.
       repeat split; [discriminate |].
       exists q. repeat split. exact Hmatch. }
  destruct (String.eqb_spec (match_label bestMatch) "unknown") as [Hunknown | Hknown];
    cbn [negb].
  - split; [reflexivity |].
    right; right; right; right; right; right.
    repeat split; [discriminate |].
    exists q, bestMatch. repeat split; [exact Hmatch | exact Hunknown].
  - split.
    + unfold markAttendance. cbn. now destruct err.
    + right; right; right; right; right; left.
      repeat split; [discriminate |].
      exists q, bestMatch. split; [reflexivity |]. split; [exact Hmatch |].
      split; [exact Hknown | reflexivity].
Qed.

End AppFacts.

(** ** More about the spoof scorer and the blink predicate *)

Module ScorerFacts.
Import JS AntiSpoofing.

(** A face is reported as spoofed exactly when its size is outside the
    trusted range and, at the same time, a previous position is stored and
    the move from it is not strictly between 5 and 50 pixels.  So the first
    scored face after loading the module is never spoofed, and neither is a
    face of trusted size, however it moves. *)
Theorem spoofed_iff_size_and_movement_suspicious
    (d : Detection) (v : Video) (g : Globals) :
  isSpoofed (fst (detectSpoofing (Some d) (Some v) g))
  = negb (gt (faceRatioOf (box d) v) 0.05 && lt (faceRatioOf (box d) v) 0.4)
    && match lastFacePosition g with
       | Some last =>
           negb (gt (movementBetween (centerOf (box d)) last) 5
                 && lt (movementBetween (centerOf (box d)) last) 50)
       | None => false
       end.
Proof.
  unfold detectSpoofing. cbn [fst isSpoofed].
  destruct (gt (faceRatioOf (box d) v) 0.05 && lt (faceRatioOf (box d) v) 0.4);
    destruct (lastFacePosition g) as [last |];
    try destruct (gt (movementBetween (centerOf (box d)) last) 5
                  && lt (movementBetween (centerOf (box d)) last) 50);
    reflexivity.
Qed.

(** The confidence the scorer returns is always a number between 0 and 1;
    with both arguments present it is above 0.13 and below 0.55. *)
Theorem confidence_between_0_and_1
    (detection : option Detection) (video : option Video) (g : Globals) :
  let c := confidence (fst (detectSpoofing detection video g)) in
  PrimFloat.leb 0 c = true /\ PrimFloat.leb c 1 = true /\
  (detection <> None /\ video <> None ->
   PrimFloat.ltb 0.13 c = true /\ PrimFloat.ltb c 0.55 = true).
Proof.
  intros c. subst c.
  destruct detection as [d |], video as [v |];
    try (split; [reflexivity | split; [reflexivity | intros [H1 H2]; congruence]]).
  unfold detectSpoofing. cbn [fst confidence].
  destruct (gt (faceRatioOf (box d) v) 0.05 && lt (faceRatioOf (box d) v) 0.4);
    destruct (lastFacePosition g) as [last |];
    try destruct (gt (movementBetween (centerOf (box d)) last) 5
                  && lt (movementBetween (centerOf (box d)) last) 50);
    (split; [reflexivity | split; [reflexivity | intros _; split; reflexivity]]).
Qed.

(** On an eye of at least six points [calculateEAR] reads the first six. *)
Lemma calculateEAR_first_six (eye : list Point) :
  6 <= List.length eye ->
  calculateEAR eye = calculateEAR (firstn 6 eye).
Proof.
  intros Hlen.
  do 6 (destruct eye as [| ? eye]; [cbn in Hlen; lia |]).
  reflexivity.
Qed.

Lemma calculateEAR_normal_or_throw (eye : list Point) :
  (6 <= List.length eye /\ calculateEAR eye = Normal (Spec.eyeEAR (firstn 6 eye)))
  \/ (List.length eye < 6 /\ calculateEAR eye = Throw TypeError).
Proof.
  destruct (Nat.le_gt_cases 6 (List.length eye)) as [Hge | Hlt].
  - left. split; [exact Hge |].
    rewrite (calculateEAR_first_six eye Hge).
    apply BlinkFacts.calculateEAR_six_points.
    rewrite length_firstn. lia.
  - right. split; [exact Hlt |]. now apply BlinkFacts.calculateEAR_too_few.
Qed.

(** Landmarks beyond the sixth point of an eye are never read: the blink
    predicate of a landmark set with at least six points per eye is that of
    its first six points per eye. *)
Theorem detectBlink_reads_first_six_points (lm : Landmarks) :
  6 <= List.length (getLeftEye lm) ->
  6 <= List.length (getRightEye lm) ->
  detectBlink (Some lm)
  = detectBlink (Some (mkLandmarks (firstn 6 (getLeftEye lm)) (firstn 6 (getRightEye lm)))).
Proof.
  intros Hl Hr.
  unfold detectBlink, detectBlink_try. cbn [getLeftEye getRightEye].
  now rewrite <- (calculateEAR_first_six _ Hl), <- (calculateEAR_first_six _ Hr).
Qed.

Lemma detectBlink_reads_first_six_points_witness :
  6 <= List.length (getLeftEye Scenario.sevenPointEyes) /\
  6 <= List.length (getRightEye Scenario.sevenPointEyes) /\
  detectBlink (Some Scenario.sevenPointEyes) = detectBlink (Some Scenario.closedEyes).
Proof.
  split; [cbn; lia | split; [cbn; lia |]].
  apply (detectBlink_reads_first_six_points Scenario.sevenPointEyes); cbn; lia.
Defined.

(** The blink predicate does not tell the eyes apart: exchanging the left
    and the right eye never changes its answer, whatever the landmarks. *)
Theorem detectBlink_symmetric_in_eyes (leftEye rightEye : list Point) :
  detectBlink (Some (mkLandmarks leftEye rightEye))
  = detectBlink (Some (mkLandmarks rightEye leftEye)).
Proof.
  unfold detectBlink, detectBlink_try. cbn [getLeftEye getRightEye].
  destruct (calculateEAR_normal_or_throw leftEye) as [[_ ->] | [_ ->]];
    destruct (calculateEAR_normal_or_throw rightEye) as [[_ ->] | [_ ->]];
    cbn [cbind]; try reflexivity.
  now rewrite FloatFacts.add_comm.
Qed.

End ScorerFacts.

(** ** More about the liveness session *)

Module SessionFacts.
Import JS AntiSpoofing Session.

(** A frame without a face changes no module variable. *)
Lemma frame_without_face (cb : ProgressCallback) (n : nat) (r : DetectorResult) (g : Globals) :
  faceSeen r = false ->
  tryCatch (detectLiveness_try cb n r) g = g.
Proof.
  destruct r as [| | d]; [reflexivity | reflexivity | discriminate].
Qed.

(** Without a stored position a frame cannot detect a head movement. *)
Lemma frame_without_stored_position
    (cb : ProgressCallback) (n : nat) (r : DetectorResult) (g : Globals) :
  lastFacePosition g = None ->
  headMovementDetected (tryCatch (detectLiveness_try cb n r) g) = headMovementDetected g.
Proof.
  intros Hlast.
  unfold tryCatch, detectLiveness_try, sbind.
  destruct r as [| | d]; [reflexivity | reflexivity |].
  cbn [awaitDetection sret].
  destruct (detectBlink (landmarks d) && (n mod 5 =? 0)); cbn;
    [destruct cb as [callback |]; cbn;
     [match goal with |- context [callback ?p] => destruct (callback p) end; cbn |] |];
    rewrite ?Hlast; reflexivity.
Qed.

(** At [maxFrames] the callback resolves whatever the frame source says. *)
Lemma tick_at_limit (cb : ProgressCallback) (frames : FrameSource) (g : Globals) (fc : nat) :
  maxFrames <= fc ->
  tick cb frames g fc = Resolved (verdictOf g) (set_blinkDetectionActive false g).
Proof.
  intros Hge. unfold tick, detectLiveness.
  destruct (Nat.leb_spec maxFrames fc) as [_ | Hlt]; [| lia].
  rewrite orb_true_r.
  now destruct (stopRequested (frames (S fc))).
Qed.

(** A stop request makes the next callback resolve with the counters as
    they are. *)
Lemma tick_stopped (cb : ProgressCallback) (frames : FrameSource) (g : Globals) (fc : nat) :
  stopRequested (frames (S fc)) = true ->
  tick cb frames g fc = Resolved (verdictOf g) (set_blinkDetectionActive false g).
Proof.
  intros Hstop. unfold tick, detectLiveness. now rewrite Hstop.
Qed.

(** The callbacks read the frame source only at frames up to [maxFrames]. *)
Lemma frameLoop_ext (cb : ProgressCallback) (frames frames' : FrameSource) (k : nat) :
  forall (g : Globals) (fc : nat),
    (forall m, fc < m <= maxFrames ->
               detectorResult (frames m) = detectorResult (frames' m) /\
               stopRequested (frames m) = stopRequested (frames' m)) ->
    frameLoop k cb frames g fc = frameLoop k cb frames' g fc.
Proof.
  induction k as [| k IH]; intros g fc Hagree; [reflexivity |].
  cbn [frameLoop].
  assert (Htick : tick cb frames g fc = tick cb frames' g fc).
  { destruct (Nat.le_gt_cases maxFrames fc) as [Hge | Hlt].
    - now rewrite !tick_at_limit.
    - unfold tick. destruct (Hagree (S fc)) as [-> ->]; [lia | reflexivity]. }
  rewrite Htick.
  destruct (tick cb frames' g fc) as [v g' | g' fc'] eqn:Hstep; [reflexivity |].
  apply LivenessFacts.tick_scheduled in Hstep as (-> & _).
  apply IH. intros m Hm. apply Hagree. lia.
Qed.

(** The session is the chain of callbacks on the frame source as the
    session reads it. *)
Lemma sessionAfter_as_frameLoop
    (cb : ProgressCallback) (frames : FrameSource) (g : Globals) (n : nat) :
  sessionAfter n cb frames g = frameLoop n cb (directFirst frames) (startSession g) 0.
Proof.
  destruct n as [| n]; [reflexivity |].
  cbn [sessionAfter frameLoop].
  change (tick cb (directFirst frames) (startSession g) 0)
    with (detectLiveness cb (startSession g) 0 (detectorResult (frames 1))).
  destruct (detectLiveness cb (startSession g) 0 (detectorResult (frames 1)))
    as [v g' | g' fc'] eqn:Hfirst; [reflexivity |].
  apply LivenessFacts.detectLiveness_scheduled in Hfirst as (-> & _).
  apply frameLoop_ext. intros m Hm. unfold directFirst.
  destruct (Nat.eqb_spec m 1); [lia | auto].
Qed.

Lemma countsAsBlink_directFirst (frames : FrameSource) (n : nat) :
  countsAsBlink (directFirst frames) n = countsAsBlink frames n.
Proof.
  unfold countsAsBlink, directFirst. now destruct (n =? 1).
Qed.

Lemma countedBlinks_directFirst (frames : FrameSource) (first count : nat) :
  countedBlinks (directFirst frames) first count = countedBlinks frames first count.
Proof.
  unfold countedBlinks. f_equal.
  apply filter_ext. intros n. apply countsAsBlink_directFirst.
Qed.

Lemma countedBlinks_succ (frames : FrameSource) (first count : nat) :
  countedBlinks frames first (S count)
  = (if countsAsBlink frames first then 1 else 0) + countedBlinks frames (S first) count.
Proof.
  unfold countedBlinks. cbn [seq filter].
  now destruct (countsAsBlink frames first).
Qed.

(** While no stop is requested, the callbacks process frame after frame
    and count the blinks of the frames that count. *)
Lemma frameLoop_runs (cb : ProgressCallback) (frames : FrameSource) (k : nat) :
  forall (g : Globals) (fc : nat),
    blinkDetectionActive g = true ->
    fc + k <= maxFrames ->
    (forall m, fc < m <= fc + k -> stopRequested (frames m) = false) ->
    exists g',
      frameLoop k cb frames g fc = Scheduled g' (fc + k) /\
      blinkDetectionActive g' = true /\
      blinkCount g' = blinkCount g + countedBlinks frames (S fc) k.
Proof.
  induction k as [| k IH]; intros g fc Hact Hmax Hrun.
  - exists g. rewrite !Nat.add_0_r. repeat split; auto.
  - cbn [frameLoop].
    rewrite (LivenessFacts.tick_runs cb frames g fc Hact) by (lia || (apply Hrun; lia)).
    set (g1 := tryCatch _ g).
    destruct (LivenessFacts.frame_effect cb (S fc) (detectorResult (frames (S fc))) g)
      as (Hcount & _ & Hact1).
    cbv zeta in Hcount. fold g1 in Hcount, Hact1.
    destruct (IH g1 (S fc)) as (g' & Hloop & Hact' & Hsum).
    + now rewrite Hact1.
    + lia.
    + intros m Hm. apply Hrun. lia.
    + exists g'. replace (fc + S k) with (S fc + k) by lia.
      repeat split; auto.
      rewrite Hsum, Hcount, countedBlinks_succ. unfold countsAsBlink. lia.
Qed.

(** A resolved promise stays resolved. *)
Lemma frameLoop_resolved_stays (cb : ProgressCallback) (frames : FrameSource)
    (j k : nat) (g g' : Globals) (fc : nat) (v : LivenessVerdict) :
  frameLoop j cb frames g fc = Resolved v g' ->
  frameLoop (j + k) cb frames g fc = Resolved v g'.
Proof.
  intros Hj. rewrite LivenessFacts.frameLoop_add. now rewrite Hj.
Qed.

(** Five times the blink count never exceeds the frame count. *)
Lemma frameLoop_blink_bound (cb : ProgressCallback) (frames : FrameSource) (k : nat) :
  forall (g : Globals) (fc : nat),
    fc <= maxFrames ->
    5 * blinkCount g <= fc ->
    5 * blinkCount (globalsOf (frameLoop k cb frames g fc)) <= maxFrames.
Proof.
  induction k as [| k IH]; intros g fc Hfc Hbound; cbn [frameLoop].
  - cbn. lia.
  - destruct (tick cb frames g fc) as [v g1 | g1 fc1] eqn:Hstep.
    + apply LivenessFacts.tick_resolved in Hstep as (_ & Hb & _).
      cbn. rewrite Hb. lia.
    + apply LivenessFacts.tick_scheduled in Hstep as (-> & Hlt & _ & _ & ->).
      apply IH; [lia |].
      destruct (LivenessFacts.frame_effect cb (S fc) (detectorResult (frames (S fc))) g)
        as (Hcount & _).
      cbv zeta in Hcount. rewrite Hcount.
      destruct (Spec.rawBlink _ && (S fc mod 5 =? 0)) eqn:Hcounted; [| lia].
      apply andb_true_iff in Hcounted as [_ Hmod].
      apply Nat.eqb_eq in Hmod.
      pose proof (Nat.div_mod_eq (S fc) 5). lia.
Qed.

(** A callback either resolves with the verdict of the counters as they
    are, or processes the next frame. *)
Lemma tick_cases (cb : ProgressCallback) (frames : FrameSource) (g : Globals) (fc : nat) :
  tick cb frames g fc = Resolved (verdictOf g) (set_blinkDetectionActive false g)
  \/ tick cb frames g fc
     = Scheduled (tryCatch (detectLiveness_try cb (S fc) (detectorResult (frames (S fc)))) g)
                 (S fc).
Proof.
  unfold tick, detectLiveness.
  destruct (stopRequested (frames (S fc))); cbn [stopLivenessDetection
    set_blinkDetectionActive blinkDetectionActive negb orb]; [now left |].
  destruct (negb (blinkDetectionActive g) || (maxFrames <=? fc)); [now left | now right].
Qed.

(** The session runs until the first stop request or until [maxFrames]
    frames are processed, whichever comes first, and resolves with the
    counters reached there: if no stop is requested at frames 2 to n, and
    either n is [maxFrames] or a stop is requested at frame n + 1, then
    exactly n frames are processed, the verdict is that of the state after
    frame n, and the reported blinks are the frames among 1 .. n whose
    number is a multiple of 5 and whose raw blink predicate holds. *)
Theorem session_ends_at_first_stop_or_maxFrames
    (cb : ProgressCallback) (frames : FrameSource) (g : Globals) (n : nat) :
  1 <= n <= maxFrames ->
  (forall m, 2 <= m <= n -> stopRequested (frames m) = false) ->
  n = maxFrames \/ stopRequested (frames (S n)) = true ->
  exists gn,
    sessionAfter n cb frames g = Scheduled gn n /\
    verifyLiveness cb frames g
    = Some (verdictOf gn, set_blinkDetectionActive false gn) /\
    blinkCount gn = countedBlinks frames 1 n.
Proof.
  intros [Hn1 Hnmax] Hnostop Hend.
  destruct (frameLoop_runs cb (directFirst frames) n (startSession g) 0)
    as (gn & Hloop & Hact & Hcount); [reflexivity | lia | |].
  { intros m Hm. unfold directFirst.
    destruct (Nat.eqb_spec m 1); [reflexivity | apply Hnostop; lia]. }
  cbn [Nat.add] in Hloop.
  exists gn. split; [| split].
  - now rewrite sessionAfter_as_frameLoop.
  - unfold verifyLiveness, verifyLiveness_fuel.
    rewrite sessionAfter_as_frameLoop.
    replace (S maxFrames) with (n + (1 + (maxFrames - n))) by lia.
    rewrite LivenessFacts.frameLoop_add, Hloop.
    rewrite (frameLoop_resolved_stays cb (directFirst frames) 1 (maxFrames - n)
               gn (set_blinkDetectionActive false gn) n (verdictOf gn));
      [reflexivity |].
    cbn [frameLoop].
    assert (Htick : tick cb (directFirst frames) gn n
                    = Resolved (verdictOf gn) (set_blinkDetectionActive false gn)).
    { destruct Hend as [-> | Hstop].
      - now apply tick_at_limit.
      - apply tick_stopped. unfold directFirst.
        destruct (Nat.eqb_spec (S n) 1); [lia | exact Hstop]. }
    now rewrite Htick.
  - rewrite Hcount, countedBlinks_directFirst. reflexivity.
Qed.

(** A session stopped right after its seventh frame: seven frames are
    processed and the one blink of frame 5 is reported. *)
Lemma session_ends_at_first_stop_or_maxFrames_witness :
  let stopAtEight : FrameSource :=
    fun n => {| stopRequested := (n =? 8);
                detectorResult :=
                  Face {| landmarks := Some Scenario.closedEyes;
                          box := Scenario.boxAt 100 |} |} in
  exists gn,
    sessionAfter 7 None stopAtEight initialGlobals = Scheduled gn 7 /\
    verifyLiveness None stopAtEight initialGlobals
    = Some (verdictOf gn, set_blinkDetectionActive false gn) /\
    blinkCount gn = 1.
Proof.
  intros stopAtEight.
  apply (session_ends_at_first_stop_or_maxFrames None stopAtEight initialGlobals 7).
  - unfold maxFrames. lia.
  - intros m Hm. cbn. destruct (Nat.eqb_spec m 8); [lia | reflexivity].
  - right. reflexivity.
Defined.

(** Whatever the frames, a verdict never reports more than 60 blinks:
    five times the blink count never exceeds the number of frames
    processed, and that never exceeds [maxFrames]. *)
Theorem verdict_reports_at_most_sixty_blinks
    (cb : ProgressCallback) (frames : FrameSource) (g : Globals) :
  exists v g',
    verifyLiveness cb frames g = Some (v, g') /\ blinks v <= 60.
Proof.
  unfold verifyLiveness, verifyLiveness_fuel.
  rewrite sessionAfter_as_frameLoop.
  destruct (LivenessFacts.frameLoop_resolves cb (directFirst frames) (S maxFrames)
              (startSession g) 0) as (v & g' & Hrun); [lia | lia |].
  exists v, g'. rewrite Hrun. split; [reflexivity |].
  destruct (LivenessFacts.frameLoop_verdict _ _ _ _ _ _ _ Hrun) as (_ & Hb & _).
  pose proof (frameLoop_blink_bound cb (directFirst frames) (S maxFrames)
                (startSession g) 0) as Hbound.
  rewrite Hrun in Hbound. cbn [globalsOf] in Hbound.
  rewrite Hb. unfold maxFrames in Hbound.
  assert (5 * blinkCount g' <= 300) by (apply Hbound; cbn; lia).
  lia.
Qed.

(** Frames beyond [maxFrames] are never read: two frame sources that
    agree on frames 1 to 300 give the same verdict and leave the same
    module state. *)
Theorem frames_beyond_maxFrames_never_read
    (cb : ProgressCallback) (frames frames' : FrameSource) (g : Globals) :
  agreeUpTo maxFrames frames frames' ->
  verifyLiveness cb frames g = verifyLiveness cb frames' g.
Proof.
  intros [Hdet Hstop].
  unfold verifyLiveness, verifyLiveness_fuel.
  rewrite !sessionAfter_as_frameLoop.
  rewrite (frameLoop_ext cb (directFirst frames) (directFirst frames')); [reflexivity |].
  intros m Hm. unfold directFirst.
  destruct (Nat.eqb_spec m 1) as [-> | Hne]; cbn [detectorResult stopRequested].
  - split; [apply Hdet; unfold maxFrames; lia | reflexivity].
  - split; [apply Hdet | apply Hstop]; lia.
Qed.

Lemma frames_beyond_maxFrames_never_read_witness :
  let cutOff : FrameSource :=
    fun n => if n <=? 300 then Scenario.scenarioA n
             else {| stopRequested := true; detectorResult := Rejects |} in
  agreeUpTo maxFrames Scenario.scenarioA cutOff /\
  verifyLiveness None Scenario.scenarioA initialGlobals
  = verifyLiveness None cutOff initialGlobals.
Proof.
  intros cutOff.
  assert (Hagree : agreeUpTo maxFrames Scenario.scenarioA cutOff).
  { unfold agreeUpTo, cutOff, maxFrames.
    split; intros m Hm; (destruct (Nat.leb_spec m 300); [reflexivity | lia]). }
  split; [exact Hagree |].
  apply (frames_beyond_maxFrames_never_read None Scenario.scenarioA cutOff
           initialGlobals Hagree).
Defined.

(** Frames without a face leave the counters alone. *)
Lemma frameLoop_without_faces (cb : ProgressCallback) (frames : FrameSource) (k : nat) :
  forall (g : Globals) (fc : nat),
    (forall m, faceSeen (detectorResult (frames m)) = false) ->
    frameLoop k cb frames g fc = Scheduled g (fc + k)
    \/ frameLoop k cb frames g fc
       = Resolved (verdictOf g) (set_blinkDetectionActive false g).
Proof.
  induction k as [| k IH]; intros g fc Hnone.
  - left. now rewrite Nat.add_0_r.
  - cbn [frameLoop].
    destruct (tick_cases cb frames g fc) as [-> | ->]; [now right |].
    rewrite (frame_without_face cb (S fc) _ g (Hnone (S fc))).
    replace (fc + S k) with (S fc + k) by lia.
    now apply IH.
Qed.

(** A session in which the detector never finds a face (it answers with no
    face, or rejects, at every frame) resolves, stopped or not, with
    {success: false, blinks: 0, headMovement: false} and leaves the stored
    face position as it found it. *)
Theorem session_without_faces_fails
    (cb : ProgressCallback) (frames : FrameSource) (g : Globals) :
  (forall m, faceSeen (detectorResult (frames m)) = false) ->
  verifyLiveness cb frames g
  = Some ({| success := false; blinks := 0; headMovement := false |},
          {| blinkCount := 0;
             headMovementDetected := false;
             lastFacePosition := lastFacePosition g;
             blinkDetectionActive := false |}).
Proof.
  intros Hnone.
  unfold verifyLiveness, verifyLiveness_fuel.
  rewrite sessionAfter_as_frameLoop.
  destruct (LivenessFacts.frameLoop_resolves cb (directFirst frames) (S maxFrames)
              (startSession g) 0) as (v & g' & Hrun); [lia | lia |].
  destruct (frameLoop_without_faces cb (directFirst frames) (S maxFrames)
              (startSession g) 0) as [Hsched | Hres].
  - intros m. unfold directFirst. destruct (m =? 1); apply Hnone.
  - rewrite Hsched in Hrun. discriminate Hrun.
  - rewrite Hres. reflexivity.
Qed.

Lemma session_without_faces_fails_witness :
  let rejecting : FrameSource :=
    fun n => {| stopRequested := (n =? 40);
                detectorResult := if n mod 2 =? 0 then Rejects else NoFace |} in
  (forall m, faceSeen (detectorResult (rejecting m)) = false) /\
  verifyLiveness None rejecting Scenario.afterOneFrame
  = Some ({| success := false; blinks := 0; headMovement := false |},
          {| blinkCount := 0;
             headMovementDetected := false;
             lastFacePosition := Some (mkPoint 200 200);
             blinkDetectionActive := false |}).
Proof.
  intros rejecting.
  assert (Hnone : forall m, faceSeen (detectorResult (rejecting m)) = false).
  { intros m. unfold rejecting. cbn [detectorResult]. now destruct (m mod 2 =? 0). }
  split; [exact Hnone |].
  apply (session_without_faces_fails None rejecting Scenario.afterOneFrame Hnone).
Defined.

(** [verifyLiveness] does not reset the stored face position, so the
    first frame of a session is compared with whatever an earlier session or
    spoof check left there: after a first frame with a face, head movement
    is already detected exactly when a position was stored and the face
    centre is more than 10 pixels from it.  No blink is counted at frame 1. *)
Theorem first_frame_compared_with_stored_position
    (cb : ProgressCallback) (frames : FrameSource) (g : Globals) (d : Detection) :
  detectorResult (frames 1) = Face d ->
  exists g1,
    sessionAfter 1 cb frames g = Scheduled g1 1 /\
    blinkCount g1 = 0 /\
    lastFacePosition g1 = Some (centerOf (box d)) /\
    headMovementDetected g1
    = match lastFacePosition g with
      | Some last => gt (movementBetween (centerOf (box d)) last) 10
      | None => false
      end.
Proof.
  intros Hface.
  cbn [sessionAfter]. rewrite Hface.
  rewrite LivenessFacts.detectLiveness_runs by (reflexivity || (unfold maxFrames; lia)).
  cbn [frameLoop]. eexists. split; [reflexivity |].
  unfold tryCatch, detectLiveness_try, sbind.
  cbn [awaitDetection sret].
  change (1 mod 5 =? 0) with false. rewrite andb_false_r.
  cbn [sret sget startSession set_blinkDetectionActive set_headMovementDetected
       set_blinkCount lastFacePosition].
  destruct (lastFacePosition g) as [last |].
  - destruct (gt (movementBetween (centerOf (box d)) last) 10); cbn; auto.
  - cbn. auto.
Qed.

(** A spoof check of a face at the left of the frame, then a session whose
    first frame shows the face 20 pixels further right: head movement is
    detected at once. *)
Lemma first_frame_compared_with_stored_position_witness :
  let checked :=
    snd (detectSpoofing (Some (mkDetection None (Scenario.boxAt 100)))
                        (Some Scenario.camera) initialGlobals) in
  detectorResult (Scenario.movedWithoutLandmarks 1)
  = Face (mkDetection None (Scenario.boxAt 120)) /\
  exists g1,
    sessionAfter 1 None Scenario.movedWithoutLandmarks checked = Scheduled g1 1 /\
    blinkCount g1 = 0 /\
    lastFacePosition g1 = Some (mkPoint 220 200) /\
    headMovementDetected g1 = true.
Proof.
  intros checked. split; [reflexivity |].
  apply (first_frame_compared_with_stored_position None Scenario.movedWithoutLandmarks
           checked (mkDetection None (Scenario.boxAt 120)) eq_refl).
Defined.

(** With one face frame at most, no movement can be detected. *)
Lemma frameLoop_single_face (cb : ProgressCallback) (frames : FrameSource)
    (only : nat) (k : nat) :
  forall (g : Globals) (fc : nat),
    headMovementDetected g = false ->
    lastFacePosition g = None \/ only <= fc ->
    (forall m, m <> only -> faceSeen (detectorResult (frames m)) = false) ->
    headMovementDetected (globalsOf (frameLoop k cb frames g fc)) = false.
Proof.
  induction k as [| k IH]; intros g fc Hhm Hphase Hnone; cbn [frameLoop].
  - exact Hhm.
  - destruct (tick_cases cb frames g fc) as [-> | ->]; [exact Hhm |].
    destruct (Nat.eq_dec (S fc) only) as [Heq | Hne].
    + apply IH; [| right; lia | exact Hnone].
      destruct Hphase as [Hlast | Hle]; [| lia].
      now rewrite frame_without_stored_position.
    + rewrite (frame_without_face cb (S fc) _ g (Hnone (S fc) Hne)).
      apply IH; [exact Hhm | | exact Hnone].
      destruct Hphase as [Hlast | Hle]; [now left | right; lia].
Qed.

(** Head movement needs two frames with a face: when no face position is
    stored at the start and the detector finds a face in one frame at most,
    the session reports no head movement and fails, however many blinks
    that frame shows. *)
Theorem one_face_frame_never_succeeds
    (cb : ProgressCallback) (frames : FrameSource) (g : Globals) (only : nat) :
  lastFacePosition g = None ->
  (forall m, m <> only -> faceSeen (detectorResult (frames m)) = false) ->
  exists v g',
    verifyLiveness cb frames g = Some (v, g') /\
    headMovement v = false /\
    success v = false.
Proof.
  intros Hlast Hnone.
  unfold verifyLiveness, verifyLiveness_fuel.
  rewrite sessionAfter_as_frameLoop.
  destruct (LivenessFacts.frameLoop_resolves cb (directFirst frames) (S maxFrames)
              (startSession g) 0) as (v & g' & Hrun); [lia | lia |].
  exists v, g'. rewrite Hrun. split; [reflexivity |].
  destruct (LivenessFacts.frameLoop_verdict _ _ _ _ _ _ _ Hrun) as (Hs & _ & Hh).
  pose proof (frameLoop_single_face cb (directFirst frames) only (S maxFrames)
                (startSession g) 0) as Hhm.
  rewrite Hrun in Hhm. cbn [globalsOf] in Hhm.
  assert (Hno : headMovementDetected g' = false).
  { apply Hhm; [reflexivity | left; exact Hlast |].
    intros m Hm. unfold directFirst. destruct (m =? 1); now apply Hnone. }
  rewrite Hs, Hh, Hno. split; [reflexivity | apply andb_false_r].
Qed.

Lemma one_face_frame_never_succeeds_witness :
  let oneFace : FrameSource :=
    fun n => {| stopRequested := false;
                detectorResult :=
                  if n =? 10
                  then Face {| landmarks := Some Scenario.closedEyes;
                               box := Scenario.boxAt 100 |}
                  else NoFace |} in
  lastFacePosition initialGlobals = None /\
  exists v g',
    verifyLiveness None oneFace initialGlobals = Some (v, g') /\
    headMovement v = false /\
    success v = false.
Proof.
  intros oneFace. split; [reflexivity |].
  apply (one_face_frame_never_succeeds None oneFace initialGlobals 10 eq_refl).
  intros m Hm. unfold oneFace. cbn [detectorResult].
  destruct (Nat.eqb_spec m 10); [contradiction | reflexivity].
Defined.

(** A session starts by resetting the blink count and the movement flag,
    so nothing of an earlier session reaches it except the stored face
    position: two module states with the same [lastFacePosition] give the
    same verdict and the same final state. *)
Theorem session_depends_only_on_stored_position
    (cb : ProgressCallback) (frames : FrameSource) (g1 g2 : Globals) :
  lastFacePosition g1 = lastFacePosition g2 ->
  verifyLiveness cb frames g1 = verifyLiveness cb frames g2.
Proof.
  intros Hlast.
  assert (Hstart : startSession g1 = startSession g2).
  { unfold startSession, set_blinkDetectionActive, set_headMovementDetected,
      set_blinkCount. cbn. now rewrite Hlast. }
  unfold verifyLiveness, verifyLiveness_fuel.
  rewrite !sessionAfter_as_frameLoop. now rewrite Hstart.
Qed.

Lemma session_depends_only_on_stored_position_witness :
  let used :=
    {| blinkCount := 9;
       headMovementDetected := true;
       lastFacePosition := None;
       blinkDetectionActive := true |} in
  lastFacePosition used = lastFacePosition initialGlobals /\
  verifyLiveness None Scenario.scenarioA used
  = verifyLiveness None Scenario.scenarioA initialGlobals.
Proof.
  intros used. split; [reflexivity |].
  apply (session_depends_only_on_stored_position None Scenario.scenarioA
           used initialGlobals eq_refl).
Defined.

End SessionFacts.

(** ** The notification queue *)

Module NotificationFacts.
Import Notifications.
Local Open Scope string_scope.

Lemma sendEmailNotification_queue (outcome : InsertOutcome)
    (to subject body : string) (db : Db) :
  notifications (snd (sendEmailNotification outcome to subject body db))
  = (notifications db
     ++ if stored outcome
        then [{| type := "email"; recipient := to; subject := subject;
                 body := body; status := "pending" |}]
        else [])%list.
Proof. destruct outcome; cbn; now rewrite ?app_nil_r. Qed.

Lemma sendSMSAlert_queue (outcome : InsertOutcome)
    (phoneNumber message : string) (db : Db) :
  notifications (snd (sendSMSAlert outcome phoneNumber message db))
  = (notifications db
     ++ if stored outcome
        then [{| type := "sms"; recipient := phoneNumber; subject := "Attendance Alert";
                 body := message; status := "pending" |}]
        else [])%list.
Proof. destruct outcome; cbn; now rewrite ?app_nil_r. Qed.

(** [checkAndNotifyLowAttendance] returns true exactly when the percentage
    is below 75 (so not at 75, and not for NaN), whether or not anything
    could be queued.  Below 75 it queues, in this order, one pending email
    row to [email] if that is given and its insert succeeds, and one pending
    SMS row to [phoneNumber] if that is given and its insert succeeds;
    otherwise it queues and logs nothing. *)
Theorem checkAndNotifyLowAttendance_queues
    (toFixed1 : float -> string) (emailOutcome smsOutcome : InsertOutcome)
    (studentName subject : string) (attendancePercentage : float)
    (email phoneNumber : option string) (db : Db) :
  let result :=
    checkAndNotifyLowAttendance toFixed1 emailOutcome smsOutcome studentName subject
      attendancePercentage email phoneNumber db in
  let below := PrimFloat.ltb attendancePercentage 75 in
  fst result = below /\
  map addressOf (notifications (snd result))
  = (map addressOf (notifications db)
     ++ (if below && truthy email && stored emailOutcome
         then [("email", valueOf email, "pending")] else [])
     ++ (if below && truthy phoneNumber && stored smsOutcome
         then [("sms", valueOf phoneNumber, "pending")] else []))%list /\
  (below = false -> snd result = db).
Proof.
  unfold checkAndNotifyLowAttendance, THRESHOLD.
  destruct (PrimFloat.ltb attendancePercentage 75); cbn zeta; cbn [fst snd andb].
  - split; [reflexivity |]. split; [| discriminate].
    destruct (truthy email), (truthy phoneNumber);
      rewrite ?sendSMSAlert_queue, ?sendEmailNotification_queue;
      destruct (stored emailOutcome), (stored smsOutcome);
      cbn [andb]; rewrite ?map_app, ?app_nil_r, <- ?app_assoc; reflexivity.
  - split; [reflexivity |]. split; [| reflexivity].
    now rewrite !app_nil_r.
Qed.

(** [notifyParents] returns false exactly when the contacts query fails,
    and then queues nothing.  Otherwise it queues a pending email row to
    the parent's email and a pending SMS row to the parent's phone, each if
    given and if its insert succeeds, and never a row to the student's own
    email or phone.  The percentage is not compared with any threshold: the
    same rows are queued for every percentage. *)
Theorem notifyParents_queues
    (toFixed1 : float -> string) (lookup : option Contacts)
    (emailOutcome smsOutcome : InsertOutcome)
    (studentName subject : string) (attendancePercentage : float) (db : Db) :
  let result :=
    notifyParents toFixed1 lookup emailOutcome smsOutcome studentName subject
      attendancePercentage db in
  fst result = match lookup with Some _ => true | None => false end /\
  map addressOf (notifications (snd result))
  = (map addressOf (notifications db)
     ++ match lookup with
        | Some contacts =>
            (if truthy (parent_email contacts) && stored emailOutcome
             then [("email", valueOf (parent_email contacts), "pending")] else [])
            ++ (if truthy (parent_phone contacts) && stored smsOutcome
                then [("sms", valueOf (parent_phone contacts), "pending")] else [])
        | None => []
        end)%list.
Proof.
  unfold notifyParents, getStudentContacts.
  destruct lookup as [contacts |]; cbn zeta; cbn [fst snd].
  - split; [reflexivity |].
    destruct (truthy (parent_email contacts)), (truthy (parent_phone contacts));
      rewrite ?sendSMSAlert_queue, ?sendEmailNotification_queue;
      destruct (stored emailOutcome), (stored smsOutcome);
      cbn [andb]; rewrite ?map_app, ?app_nil_r, <- ?app_assoc; reflexivity.
  - split; [reflexivity |]. cbn. now rewrite app_nil_r.
Qed.

Lemma queueExtended_by (db db' : Db) (added : list Notification) :
  notifications db' = (notifications db ++ added)%list ->
  List.length added <= 2 ->
  Forall pendingRow added ->
  queueExtended db db'.
Proof. intros H1 H2 H3. now exists added. Qed.

Lemma queueExtended_refl (db db' : Db) :
  notifications db' = notifications db -> queueExtended db db'.
Proof.
  intros H. apply (queueExtended_by db db' []); [now rewrite app_nil_r | cbn; lia | constructor].
Qed.

Lemma pendingRow_email (to subject body : string) :
  pendingRow {| type := "email"; recipient := to; subject := subject;
                body := body; status := "pending" |}.
Proof. split; [reflexivity | now left]. Qed.

Lemma pendingRow_sms (to subject body : string) :
  pendingRow {| type := "sms"; recipient := to; subject := subject;
                body := body; status := "pending" |}.
Proof. split; [reflexivity | now right]. Qed.

(** The queue is append-only: each of the five exported functions leaves
    the rows already queued in place and unchanged, and adds at most two
    rows, every one of them with status pending and type email or sms. *)
Theorem notification_queue_append_only
    (toFixed1 : float -> string) (today : string)
    (lookup : option Contacts) (o1 o2 : InsertOutcome)
    (a b c : string) (pct : float) (e p : option string)
    (data : list AttendanceRecord) (db : Db) :
  queueExtended db (snd (sendEmailNotification o1 a b c db)) /\
  queueExtended db (snd (sendSMSAlert o1 a b db)) /\
  queueExtended db (snd (checkAndNotifyLowAttendance toFixed1 o1 o2 a b pct e p db)) /\
  queueExtended db (snd (sendDailySummary today o1 a data db)) /\
  queueExtended db (snd (notifyParents toFixed1 lookup o1 o2 a b pct db)).
Proof.
  assert (Hemail : forall o to s bd d,
             queueExtended d (snd (sendEmailNotification o to s bd d))).
  { intros o to s bd d.
    eapply queueExtended_by; [apply sendEmailNotification_queue | |];
      destruct (stored o); cbn; try lia; repeat constructor; apply pendingRow_email. }
  assert (Hsms : forall o to m d, queueExtended d (snd (sendSMSAlert o to m d))).
  { intros o to m d.
    eapply queueExtended_by; [apply sendSMSAlert_queue | |];
      destruct (stored o); cbn; try lia; repeat constructor; apply pendingRow_sms. }
  assert (Hboth : forall (send1 send2 : bool) to1 s1 b1 to2 m2 d,
             queueExtended d
               (let d1 := if send1 then snd (sendEmailNotification o1 to1 s1 b1 d) else d in
                if send2 then snd (sendSMSAlert o2 to2 m2 d1) else d1)).
  { intros send1 send2 to1 s1 b1 to2 m2 d. cbn zeta.
    destruct send1, send2; auto using queueExtended_refl.
    eapply queueExtended_by.
    - rewrite sendSMSAlert_queue, sendEmailNotification_queue, <- app_assoc. reflexivity.
    - destruct (stored o1), (stored o2); cbn; lia.
    - destruct (stored o1), (stored o2); cbn; repeat constructor;
        (apply pendingRow_email || apply pendingRow_sms). }
  repeat split.
  - apply Hemail.
  - apply Hsms.
  - unfold checkAndNotifyLowAttendance.
    destruct (PrimFloat.ltb pct THRESHOLD); cbn [snd];
      [apply Hboth | now apply queueExtended_refl].
  - apply Hemail.
  - unfold notifyParents, getStudentContacts.
    destruct lookup as [contacts |]; cbn [snd];
      [apply Hboth | now apply queueExtended_refl].
Qed.

End NotificationFacts.

(** ** Roles *)

Module RoleFacts.
Import Roles.
Local Open Scope string_scope.

(** [getUserRole] never returns the empty string. *)
Lemma getUserRole_truthy (w : Auth) (r : string) :
  getUserRole w = Some r -> r <> "".
Proof.
  unfold getUserRole, jsOr.
  destruct (getSession w) as [| [user |]]; try discriminate.
  destruct (profileQueryThrows w); try discriminate.
  destruct (truthy (profiles w (id user))) eqn:Hp.
  - rewrite Hp. intros Hr. rewrite Hr in Hp. cbn in Hp.
    intros ->. discriminate Hp.
  - destruct (truthy (metadata_role user)) eqn:Hm; [| discriminate].
    intros Hr. rewrite Hr in Hm. cbn in Hm. intros ->. discriminate Hm.
Qed.

Lemma hasRole_single (role : string) (w : Auth) :
  hasRole (inl role) w = true <-> getUserRole w = Some role.
Proof.
  unfold hasRole.
  destruct (getUserRole w) as [r |] eqn:Hrole; cbn.
  - pose proof (getUserRole_truthy w r Hrole) as Hne.
    apply String.eqb_neq in Hne. rewrite Hne. cbn.
    rewrite orb_false_r. split.
    + intros H. apply String.eqb_eq in H. now subst.
    + intros H. injection H as ->. apply String.eqb_refl.
  - split; discriminate.
Qed.

(** The role checks are consistent with one another and fail closed: an
    admin is always staff, a student is never staff or admin, and without a
    session, or when the session or profile query throws, nobody is admin,
    staff or student. *)
Theorem role_checks_consistent (w : Auth) :
  (isAdmin w = true -> isStaff w = true) /\
  (isStudent w = true -> isStaff w = false /\ isAdmin w = false) /\
  (getSession w = GetSessionThrows \/ getSession w = GotSession None
   \/ profileQueryThrows w = true ->
   isAdmin w = false /\ isStaff w = false /\ isStudent w = false).
Proof.
  split; [| split].
  - unfold isAdmin. intros H. apply hasRole_single in H.
    unfold isStaff, hasRole. rewrite H. reflexivity.
  - unfold isStudent. intros H. apply hasRole_single in H.
    unfold isStaff, isAdmin, hasRole. rewrite H. split; reflexivity.
  - intros Hclosed.
    assert (Hnone : getUserRole w = None).
    { unfold getUserRole.
      destruct Hclosed as [-> | [-> | Hthrow]]; try reflexivity.
      destruct (getSession w) as [| [user |]]; try reflexivity.
      now rewrite Hthrow. }
    unfold isAdmin, isStaff, isStudent, hasRole. rewrite Hnone.
    repeat split.
Qed.

Lemma role_checks_consistent_witness :
  let w := {| getSession := GotSession (Some (mkUser "u1" (Some "student")));
              profileQueryThrows := false;
              profiles := fun k => if String.eqb k "u1" then Some "admin" else None |} in
  isAdmin w = true /\ isStaff w = true /\ isStudent w = false.
Proof.
  intros w.
  destruct (role_checks_consistent w) as (Hadmin & _ & _).
  assert (Ha : isAdmin w = true) by reflexivity.
  split; [exact Ha |]. split; [exact (Hadmin Ha) | reflexivity].
Defined.

(** The role stored in the profile wins over the one in the user's
    metadata: when the profile row has a non-empty role, [getUserRole]
    returns it whatever the metadata says; the metadata role is used only
    when the profile has none. *)
Theorem profile_role_takes_precedence
    (uid : string) (metadata : option string) (t : Profiles) :
  let w := {| getSession := GotSession (Some (mkUser uid metadata));
              profileQueryThrows := false;
              profiles := t |} in
  (truthy (t uid) = true -> getUserRole w = t uid) /\
  (truthy (t uid) = false ->
   getUserRole w = if truthy metadata then metadata else None).
Proof.
  cbn zeta. unfold getUserRole, jsOr. cbn [getSession profileQueryThrows profiles id
    metadata_role].
  split; intros Hp; rewrite Hp.
  - now rewrite Hp.
  - reflexivity.
Qed.

(** [requireAuth] lets a visitor through only with a session and, when
    roles are asked for, only with one of those roles; it redirects to
    /index.html exactly when it returns false.  An empty array of roles
    counts as roles asked for, so it denies everyone. *)
Theorem requireAuth_grants_only_with_session_and_role
    (requiredRoles : option (string + list string)) (w : Auth)
    (granted : bool) (effects : list PageEffect) :
  requireAuth requiredRoles w = Some (granted, effects) ->
  (granted = true ->
   effects = [] /\
   (exists user, getSession w = GotSession (Some user)) /\
   (forall roles, requiredRoles = Some roles -> rolesGiven requiredRoles = true ->
                  hasRole roles w = true) /\
   requiredRoles <> Some (inr [])) /\
  (granted = false -> In (Redirect "/index.html") effects).
Proof.
  unfold requireAuth.
  destruct (getSession w) as [| [user |]] eqn:Hsession; try discriminate.
  - destruct requiredRoles as [roles |]; cbv beta iota zeta.
    + destruct (rolesGiven (Some roles) && negb (hasRole roles w)) eqn:Hdenied;
        intros H; injection H as <- <-.
      * split; [discriminate | intros _; cbn; auto].
      * split; [| discriminate]. intros _.
        split; [reflexivity |]. split; [now exists user |]. split.
        -- intros roles' Hr Hgiven. injection Hr as <-.
           rewrite Hgiven in Hdenied. cbn in Hdenied.
           now apply negb_false_iff in Hdenied.
        -- intros Hempty. injection Hempty as ->.
           cbn in Hdenied. unfold hasRole in Hdenied.
           destruct (negb (truthy (getUserRole w))); discriminate Hdenied.
    + cbn. intros H. injection H as <- <-.
      split; [| discriminate]. intros _.
      split; [reflexivity |]. split; [now exists user |].
      split; [discriminate | discriminate].
  - intros H. injection H as <- <-.
    split; [discriminate | intros _; cbn; auto].
Qed.

Lemma requireAuth_grants_only_with_session_and_role_witness :
  let w := {| getSession := GotSession (Some (mkUser "u1" None));
              profileQueryThrows := false;
              profiles := fun k => if String.eqb k "u1" then Some "staff" else None |} in
  requireAuth (Some (inr [ADMIN; STAFF])) w = Some (true, []) /\
  hasRole (inr [ADMIN; STAFF]) w = true /\
  requireAuth (Some (inr [])) w
  = Some (false, [Alert "You do not have permission to access this page.";
                  Redirect "/index.html"]).
Proof.
  intros w.
  assert (Hrun : requireAuth (Some (inr [ADMIN; STAFF])) w = Some (true, []))
    by reflexivity.
  destruct (requireAuth_grants_only_with_session_and_role _ _ _ _ Hrun)
    as [Hgranted _].
  destruct (Hgranted eq_refl) as (_ & _ & Hrole & _).
  split; [exact Hrun |]. split; [| reflexivity].
  apply Hrole; reflexivity.
Defined.

(** [updateUserRole] writes only valid roles: it updates the table exactly
    when the role is admin, staff or student and the upsert reports no
    error, and otherwise throws and leaves the table as it was.  After an
    update the user has the new role ([getUserRole] returns it, whatever the
    user's metadata says) and every other user's row is unchanged. *)
Theorem updateUserRole_then_getUserRole
    (upsertError : bool) (userId role : string) (t : Profiles) :
  let result := fst (updateUserRole upsertError userId role t) in
  let t' := snd (updateUserRole upsertError userId role t) in
  (result = Updated <-> In role ROLES_values /\ upsertError = false) /\
  (result <> Updated -> t' = t) /\
  (result = Updated ->
   (forall other, other <> userId -> t' other = t other) /\
   forall metadata,
     getUserRole {| getSession := GotSession (Some (mkUser userId metadata));
                    profileQueryThrows := false;
                    profiles := t' |} = Some role).
Proof.
  cbn zeta. unfold updateUserRole.
  destruct (existsb (String.eqb role) ROLES_values) eqn:Hvalid; cbn [negb].
  - assert (Hin : In role ROLES_values).
    { apply existsb_exists in Hvalid as (r & Hr & Heq).
      apply String.eqb_eq in Heq. now subst. }
    destruct upsertError; cbn [fst snd].
    + split; [split; [discriminate | intros [_ H]; discriminate H] |].
      split; [reflexivity | discriminate].
    + split; [split; auto |]. split; [congruence |]. intros _. split.
      * intros other Hne. unfold upsert.
        apply String.eqb_neq in Hne. now rewrite Hne.
      * intros metadata. unfold getUserRole, jsOr, upsert.
        cbn [getSession profileQueryThrows profiles id].
        rewrite String.eqb_refl.
        assert (Htruthy : truthy (Some role) = true).
        { destruct Hin as [<- | [<- | [<- | []]]]; reflexivity. }
        now rewrite !Htruthy.
  - cbn [fst snd].
    split; [split; [discriminate |] |].
    + intros [Hin _].
      assert (Hex : existsb (String.eqb role) ROLES_values = true).
      { apply existsb_exists. exists role. split; [exact Hin | apply String.eqb_refl]. }
      congruence.
    + split; [reflexivity | discriminate].
Qed.

End RoleFacts.

(** ** Registration and recognition *)

Module RegistrationFacts.
Import App Registration.
Local Open Scope string_scope.

(** A click on the register button adds a student row exactly when a name
    was entered, a face was detected and the insert reports no error; the
    row carries the entered name and the captured descriptor.  In every
    other case, a rejecting detector among them, the table and the gallery
    stay as they were, and with an empty name the camera is not even
    consulted. *)
Theorem registerClick_adds_one_named_face
    (name : string) (w : World) (insertError : bool) (reload : SelectResult)
    (page : Page) :
  let result := registerClick name w insertError reload page in
  (name = "" -> fst result = [Alert "Please enter a name"]) /\
  match detections w with
  | ChainResolves (Some descriptor) =>
      if negb (String.eqb name "") && video w && negb insertError
      then students (snd result) = (students page ++ [mkStudent name descriptor])%list
      else snd result = page
  | _ => snd result = page
  end.
Proof.
  unfold registerClick, detectFace.
  split.
  - intros ->. reflexivity.
  - destruct (String.eqb name ""); cbn [negb andb].
    + now destruct (detections w) as [| [descriptor |]].
    + destruct (video w); cbn [negb andb].
      * destruct (detections w) as [| [descriptor |]]; [reflexivity | | reflexivity].
        destruct insertError; cbn [negb]; [reflexivity |].
        now destruct (loadLabeledImages reload).
      * now destruct (detections w) as [| [descriptor |]].
Qed.

(** After a successful registration the gallery is rebuilt from what the
    reloading query returns.  When the query returns the rows of the table,
    in whatever order, the gallery has one entry per student, each with
    exactly one descriptor, the new student with the captured descriptor is
    among them, and a recognise click then goes on to matching.  When the
    query fails the gallery is emptied, and a recognise click answers that
    no faces are registered, although the student was stored. *)
Theorem register_then_recognize
    (findBestMatch : list LabeledFaceDescriptors -> float -> Descriptor -> option FaceMatch)
    (name : string) (w : World) (descriptor : Descriptor)
    (reload : SelectResult) (page : Page) :
  name <> "" ->
  video w = true ->
  detections w = ChainResolves (Some descriptor) ->
  let page' := snd (registerClick name w false reload page) in
  let trace := recognizeClick findBestMatch (worldOf w page') in
  students page' = (students page ++ [mkStudent name descriptor])%list /\
  match reload with
  | SelectError =>
      gallery page' = [] /\
      trace = [DetectSingleFace; Alert "No registered faces found in the system."]
  | Selected rows =>
      Permutation rows (students page') ->
      Permutation (map label (gallery page'))
                  (map Registration.name (students page) ++ [name])%list /\
      Forall (fun entry => List.length (descriptors entry) = 1) (gallery page') /\
      In (mkLabeled name [descriptor]) (gallery page') /\
      In (FindBestMatch descriptor) trace
  end.
Proof.
  intros Hname Hvideo Hdet. cbn zeta.
  unfold registerClick, detectFace.
  apply String.eqb_neq in Hname. rewrite Hname, Hvideo, Hdet. cbn [negb].
  destruct reload as [| rows]; cbn [loadLabeledImages snd students gallery].
  - split; [reflexivity |]. split; [reflexivity |].
    unfold recognizeClick, detectFace, worldOf. cbn. now rewrite Hvideo, Hdet.
  - split; [reflexivity |]. intros Hrows.
    split; [| split; [| split]].
    + rewrite map_map. cbn [label].
      replace (map Registration.name (students page) ++ [name])%list
        with (map Registration.name (students page ++ [mkStudent name descriptor]))
        by (now rewrite map_app).
      now apply Permutation_map.
    + apply Forall_map. apply Forall_forall. intros student _. reflexivity.
    + apply (in_map (fun student => mkLabeled (Registration.name student)
                                      [face_descriptor student])
                    rows (mkStudent name descriptor)).
      apply (Permutation_in _ (Permutation_sym Hrows)).
      apply in_or_app. right. now left.
    + unfold recognizeClick, detectFace, worldOf.
      cbn [video detections labeledFaceDescriptors App.insertError gallery].
      rewrite Hvideo, Hdet. cbn [negb].
      destruct rows as [| row rows].
      { apply Permutation_nil in Hrows.
        destruct (students page); discriminate Hrows. }
      cbn [map List.length Nat.eqb].
      destruct (findBestMatch _ _ descriptor) as [bestMatch |]; [| cbn; auto].
      destruct (negb (String.eqb _ "unknown")); cbn; auto.
Qed.

(** Bob registers after Alice.  The reloading query returns Bob's row
    first: both are in the gallery and a recognise click reaches matching.
    When the query fails instead, the gallery is empty. *)
Lemma register_then_recognize_witness :
  let w := Scenario.enrolledFaceSeen in
  let aliceRow := mkStudent "alice" [0.5; 0.25]%float in
  let bobRow := mkStudent "bob" [0.5; 0.25]%float in
  let page := {| students := [aliceRow]; gallery := [Scenario.alice] |} in
  let reloaded := snd (registerClick "bob" w false (Selected [bobRow; aliceRow]) page) in
  "bob" <> "" /\
  Permutation [bobRow; aliceRow] (students reloaded) /\
  gallery reloaded = [mkLabeled "bob" [[0.5; 0.25]%float]; Scenario.alice] /\
  In (FindBestMatch [0.5; 0.25]%float)
     (recognizeClick (returning nearestMatch) (worldOf w reloaded)) /\
  recognizeClick (returning nearestMatch)
    (worldOf w (snd (registerClick "bob" w false SelectError page)))
  = [DetectSingleFace; Alert "No registered faces found in the system."].
Proof.
  intros w aliceRow bobRow page reloaded.
  assert (Hname : "bob" <> "") by discriminate.
  assert (Hrows : Permutation [bobRow; aliceRow] (students reloaded))
    by apply perm_swap.
  pose proof (register_then_recognize (returning nearestMatch) "bob" w [0.5; 0.25]%float
                (Selected [bobRow; aliceRow]) page Hname eq_refl eq_refl) as Hok.
  pose proof (register_then_recognize (returning nearestMatch) "bob" w [0.5; 0.25]%float
                SelectError page Hname eq_refl eq_refl) as Hfailed.
  cbv zeta in Hok, Hfailed.
  destruct Hok as [_ Hok]. destruct (Hok Hrows) as (_ & _ & _ & Hmatch).
  destruct Hfailed as [_ [_ Hnone]].
  split; [exact Hname |]. split; [exact Hrows |].
  split; [reflexivity |]. split; [exact Hmatch | exact Hnone].
Defined.

(** Attendance is marked at most once per click, and only for the label
    the matcher returned for the captured descriptor; it is never marked for
    the label "unknown", so a student registered under that name can never
    be recognised. *)
Theorem attendance_only_for_matched_known_label
    (findBestMatch : list LabeledFaceDescriptors -> float -> Descriptor -> option FaceMatch)
    (w : World) :
  let trace := recognizeClick findBestMatch w in
  List.length (filter isInsertAttendance trace) <= 1 /\
  forall student,
    In (InsertAttendance student) trace ->
    student <> "unknown" /\
    exists query bestMatch,
      detections w = ChainResolves (Some query) /\
      labeledFaceDescriptors w <> [] /\
      findBestMatch (labeledFaceDescriptors w) 0.6%float query = Some bestMatch /\
      student = match_label bestMatch.
Proof.
  cbn zeta. unfold recognizeClick, detectFace.
  destruct (video w); cbn [negb].
  2: { split; [cbn; lia | intros student []]. }
  destruct (detections w) as [| [query |]].
  1, 3: split; [cbn; lia |]; intros student [H | [H | []]]; discriminate H.
  destruct (labeledFaceDescriptors w) as [| entry rest] eqn:Hgallery;
    cbn [List.length Nat.eqb].
  { split; [cbn; lia |]. intros student [H | [H | []]]; discriminate H. }
  destruct (findBestMatch (entry :: rest) 0.6%float query) as [bestMatch |] eqn:Hmatch.
  2: { split; [cbn; lia |].
       intros student [H | [H | [H | []]]]; discriminate H. }
  destruct (String.eqb_spec (match_label bestMatch) "unknown") as [Hunknown | Hknown];
    cbn [negb].
  - split; [cbn; lia |].
    intros student [H | [H | [H | []]]]; discriminate H.
  - split.
    + unfold markAttendance. destruct (App.insertError w); cbn; lia.
    + intros student Hin.
      assert (Hstudent : student = match_label bestMatch).
      { unfold markAttendance in Hin.
        destruct (App.insertError w); cbn in Hin;
          destruct Hin as [H | [H | [H | [H | [H | []]]]]];
          try discriminate H; now injection H. }
      subst student. split; [exact Hknown |].
      exists query, bestMatch. repeat split; [discriminate | exact Hmatch].
Qed.

(** What the user is told does not depend on whether the attendance
    insert succeeded: the alerts of a click are the same with and without an
    insert error, so "Attendance marked" is also shown when nothing was
    stored. *)
Theorem alerts_ignore_insert_error
    (findBestMatch : list LabeledFaceDescriptors -> float -> Descriptor -> option FaceMatch)
    (v : bool) (d : DetectorOutcome) (known : list LabeledFaceDescriptors) :
  filter isAlert (recognizeClick findBestMatch (mkWorld v d known true))
  = filter isAlert (recognizeClick findBestMatch (mkWorld v d known false)).
Proof.
  unfold recognizeClick, detectFace.
  cbn [video detections labeledFaceDescriptors App.insertError].
  destruct v; cbn [negb]; [| reflexivity].
  destruct d as [| [query |]]; [reflexivity | | reflexivity].
  destruct (List.length known =? 0)%nat; [reflexivity |].
  destruct (findBestMatch known _ query) as [bestMatch |]; [| reflexivity].
  destruct (negb (String.eqb _ "unknown")); reflexivity.
Qed.

End RegistrationFacts.

(** ** The exported CSV *)

Module CsvExportFacts.
Import CsvExport.
Local Open Scope string_scope.

Lemma occurrences_append (c : Ascii.ascii) (a b : string) :
  occurrences c (a ++ b) = occurrences c a + occurrences c b.
Proof.
  induction a as [| ch a IH]; cbn; [reflexivity |].
  rewrite IH. lia.
Qed.

Lemma occurrences_concat_lines (lines : list string) :
  Forall (fun line => occurrences newline line = 0) lines ->
  occurrences newline (String.concat nl lines) = List.length lines - 1.
Proof.
  induction 1 as [| line rest Hline Hrest IH]; [reflexivity |].
  destruct rest as [| next rest].
  - cbn. exact Hline.
  - change (String.concat nl (line :: next :: rest))
      with (line ++ nl ++ String.concat nl (next :: rest)).
    rewrite !occurrences_append, Hline, IH. cbn. lia.
Qed.

(** Nothing is downloaded when the query fails, yields [null] or yields no
    rows.  Otherwise the file has the header line and one line per record:
    given that no student name and no formatted date or time contains a line
    break, the content has exactly as many line breaks as records.  Fields
    are written unescaped, so the count holds only under that condition. *)
Theorem export_has_one_line_per_record
    (toLocaleDateString toLocaleTimeString : string -> string)
    (attendanceRecords : list AttendanceRow) :
  exportClick toLocaleDateString toLocaleTimeString QueryError = LoggedError /\
  exportClick toLocaleDateString toLocaleTimeString (Rows None) = AlertedNoRecords /\
  exportClick toLocaleDateString toLocaleTimeString (Rows (Some [])) = AlertedNoRecords /\
  (attendanceRecords <> [] ->
   Forall (fun record =>
             occurrences newline (student_name record) = 0 /\
             occurrences newline (toLocaleDateString (created_at record)) = 0 /\
             occurrences newline (toLocaleTimeString (created_at record)) = 0)
          attendanceRecords ->
   exists content,
     exportClick toLocaleDateString toLocaleTimeString (Rows (Some attendanceRecords))
     = Downloaded content /\
     occurrences newline content = List.length attendanceRecords).
Proof.
  repeat split.
  intros Hrecords Hclean.
  exists (csvContent toLocaleDateString toLocaleTimeString attendanceRecords).
  split.
  - unfold exportClick. destruct attendanceRecords; [contradiction | reflexivity].
  - unfold csvContent.
    rewrite occurrences_append, occurrences_concat_lines.
    + cbn. rewrite length_map. lia.
    + constructor; [reflexivity |].
      apply Forall_map. revert Hclean. apply Forall_impl.
      intros record (Hname & Hdate & Htime). unfold csvLine.
      rewrite !occurrences_append, Hname, Hdate, Htime. reflexivity.
Qed.

End CsvExportFacts.
